(** * Hospital readmission dashboard: data loading, aggregation and the
      heuristic risk estimator of [dashboard/app.py]

    The development embeds the parts of the dashboard script that carry a
    contract:

    - [Connection]: [get_database_connection] (lines 43-71);
    - [Loader]: the flattening loop of [load_data] (lines 74-100);
    - [Aggregator]: the pandas expressions of the pages (sums, means,
      [groupby(...).agg(['sum','count','mean'])], filters, [sort_values],
      threshold counts);
    - [RiskEstimator]: the additive heuristic behind the prediction button
      (lines 554-582), in IEEE binary64 arithmetic.

    Definitions come first; the statements about them follow in the second
    half of the file. *)

From Stdlib Require Import ZArith QArith PrimFloat String List Lia.
From Stdlib Require Import DecimalString Qround.
From stdpp Require Import base option list sorting strings gmap.

Set Warnings "-inexact-float".

Local Open Scope string_scope.
Local Open Scope Z_scope.

(* ===================================================================== *)
(** * Part I: the embedding                                               *)
(* ===================================================================== *)

(** ** Python exceptions and the result of a fallible expression *)

Inductive exn : Type :=
  | KeyError (key : string)
  | TypeError
  | PyMongoError
  | StopException.

Inductive result (A : Type) : Type :=
  | Ok (a : A)
  | Raise (e : exn).

Arguments Ok {A} a.
Arguments Raise {A} e.

(** Sequencing: the first exception raised ends the computation.  The
    instances give the notation [x ← r; k]. *)
#[global] Instance result_ret : MRet result := fun A a => Ok a.

#[global] Instance result_bind : MBind result := fun A B k r =>
  match r with
  | Ok a => k a
  | Raise e => Raise e
  end.

Definition raises {A : Type} (r : result A) : Prop :=
  match r with
  | Ok _ => False
  | Raise _ => True
  end.

Definition returns {A : Type} (r : result A) : Prop :=
  match r with
  | Ok _ => True
  | Raise _ => False
  end.

(* ===================================================================== *)
(** ** The data-store connection (lines 43-71)                            *)
(* ===================================================================== *)

Module Connection.

(** What [get_database_connection] returns: the collection handle, here the
    endpoint of its client and the two names of lines 66-67. *)
Record Collection : Type := mkCollection {
  client_uri : string;
  database : string;
  collection : string
}.

(** [st.secrets["mongodb"]["uri"]] (line 49): the endpoint the external
    configuration names, or nothing when the section or the entry is
    missing and the lookup raises. *)
Definition configured (secrets : gmap string (gmap string string)) :
    option string :=
  secrets !! "mongodb" ≫= (fun section => section !! "uri").

Section get_database_connection.

(** [st.secrets], the external configuration: sections of named values. *)
Variable secrets : gmap string (gmap string string).

(** The string literal of line 51, a connection string with credentials
    embedded; the function is the same for each value of it. *)
Variable fallback_uri : string.

(** [MongoClient(uri, ...)] followed by [client.admin.command('ping')]
    (lines 55-65): [true] when neither raises for this endpoint. *)
Variable ping : string -> bool.

(** Lines 48-51: when the lookup raises, the handler substitutes the
    literal. *)
Definition MONGODB_URI : string :=
  match configured secrets with
  | Some uri => uri
  | None => fallback_uri
  end.

(** Lines 53-71: on any exception the page shows the error and [st.stop()]
    ends the script run. *)
Definition get_database_connection : result Collection :=
  if ping MONGODB_URI
  then Ok (mkCollection MONGODB_URI "healthcare_db" "patient_readmissions")
  else Raise StopException.

End get_database_connection.

(** A stand-in for the literal of line 51, credentials elided. *)
Definition literal_uri : string :=
  "mongodb+srv://healthcare-cluster.ygij2hu.mongodb.net/?retryWrites=true&w=majority".

(** A server that answers at the literal endpoint only. *)
Definition only_literal_answers (uri : string) : bool :=
  bool_decide (uri = literal_uri).

End Connection.

(* ===================================================================== *)
(** ** The record loader (lines 74-100)                                   *)
(* ===================================================================== *)

Module Loader.

(** The leaves of a stored document: text or integers. *)
Inductive value : Type :=
  | VStr (s : string)
  | VInt (n : Z).

#[global] Instance value_eq_dec : EqDecision value.
Proof. solve_decision. Defined.

(** What a document holds under a top-level name: a sub-document, or
    something that is none, a scalar or null (a list behaves like these:
    it cannot be indexed by a field name either). *)
Inductive entry : Type :=
  | Sub (fields : gmap string value)
  | Scalar (v : value)
  | Null.

(** A document is a dictionary of such entries; a row is the flat
    dictionary built at lines 83-96. *)
Abbreviation document := (gmap string entry).
Abbreviation row := (gmap string value).

(** [d[k]] on a Python dictionary. *)
Definition getitem {V : Type} (d : gmap string V) (k : string) : result V :=
  match d !! k with
  | Some v => Ok v
  | None => Raise (KeyError k)
  end.

(** [doc[section][field]]: a missing section or field raises [KeyError];
    indexing an entry that is no sub-document by a field name raises
    [TypeError]. *)
Definition nested (doc : document) (section field : string) : result value :=
  sub ← getitem doc section;
  match sub with
  | Sub fields => getitem fields field
  | Scalar _ | Null => Raise TypeError
  end.

(** Lines 83-96: the dictionary display evaluates its twelve values in
    order, so the first missing path is the one reported. *)
Definition flatten (doc : document) : result row :=
  age ← nested doc "demographics" "age";
  gender ← nested doc "demographics" "gender";
  race ← nested doc "demographics" "race";
  time_in_hospital ← nested doc "admission" "time_in_hospital";
  num_medications ← nested doc "clinical" "num_medications";
  num_lab_procedures ← nested doc "clinical" "num_lab_procedures";
  number_diagnoses ← nested doc "clinical" "number_diagnoses";
  number_inpatient ← nested doc "utilization" "number_inpatient";
  number_emergency ← nested doc "utilization" "number_emergency";
  primary_diagnosis ← nested doc "diagnoses" "primary";
  readmitted_30days ← nested doc "outcome" "readmitted_30days";
  readmitted_label ← nested doc "outcome" "readmitted_30days_label";
  Ok (list_to_map
        [("age", age); ("gender", gender); ("race", race);
         ("time_in_hospital", time_in_hospital);
         ("num_medications", num_medications);
         ("num_lab_procedures", num_lab_procedures);
         ("number_diagnoses", number_diagnoses);
         ("number_inpatient", number_inpatient);
         ("number_emergency", number_emergency);
         ("primary_diagnosis", primary_diagnosis);
         ("readmitted_30days", readmitted_30days);
         ("readmitted_label", readmitted_label)]).

(** Lines 81-97: one row per document, in order; an exception in any
    document ends the whole load. *)
Fixpoint load_rows (data : list document) : result (list row) :=
  match data with
  | [] => Ok []
  | doc :: data' =>
      r ← flatten doc;
      rows ← load_rows data';
      Ok (r :: rows)
  end.

(** The twelve values of a patient, as a test fixture would hold them. *)
Record Fields : Type := mkFields {
  f_age : value;
  f_gender : value;
  f_race : value;
  f_time_in_hospital : value;
  f_num_medications : value;
  f_num_lab_procedures : value;
  f_number_diagnoses : value;
  f_number_inpatient : value;
  f_number_emergency : value;
  f_primary_diagnosis : value;
  f_readmitted_30days : value;
  f_readmitted_label : value
}.

(** [doc] holds the values [f] at the nested paths of the data-store
    boundary; other sections and entries may be present as well. *)
Definition shaped (doc : document) (f : Fields) : Prop :=
  nested doc "demographics" "age" = Ok (f_age f)
  /\ nested doc "demographics" "gender" = Ok (f_gender f)
  /\ nested doc "demographics" "race" = Ok (f_race f)
  /\ nested doc "admission" "time_in_hospital" = Ok (f_time_in_hospital f)
  /\ nested doc "clinical" "num_medications" = Ok (f_num_medications f)
  /\ nested doc "clinical" "num_lab_procedures" = Ok (f_num_lab_procedures f)
  /\ nested doc "clinical" "number_diagnoses" = Ok (f_number_diagnoses f)
  /\ nested doc "utilization" "number_inpatient" = Ok (f_number_inpatient f)
  /\ nested doc "utilization" "number_emergency" = Ok (f_number_emergency f)
  /\ nested doc "diagnoses" "primary" = Ok (f_primary_diagnosis f)
  /\ nested doc "outcome" "readmitted_30days" = Ok (f_readmitted_30days f)
  /\ nested doc "outcome" "readmitted_30days_label" = Ok (f_readmitted_label f).

(** Reading the twelve columns of a row back. *)
Definition read_back (r : row) : option Fields :=
  age ← r !! "age";
  gender ← r !! "gender";
  race ← r !! "race";
  time_in_hospital ← r !! "time_in_hospital";
  num_medications ← r !! "num_medications";
  num_lab_procedures ← r !! "num_lab_procedures";
  number_diagnoses ← r !! "number_diagnoses";
  number_inpatient ← r !! "number_inpatient";
  number_emergency ← r !! "number_emergency";
  primary_diagnosis ← r !! "primary_diagnosis";
  readmitted_30days ← r !! "readmitted_30days";
  readmitted_label ← r !! "readmitted_label";
  Some (mkFields age gender race time_in_hospital num_medications
          num_lab_procedures number_diagnoses number_inpatient
          number_emergency primary_diagnosis readmitted_30days
          readmitted_label).

(** A synthetic document holding exactly the twelve values. *)
Definition synthetic (f : Fields) : document :=
  list_to_map
    [("demographics",
      Sub (list_to_map [("age", f_age f); ("gender", f_gender f);
                        ("race", f_race f)]));
     ("admission",
      Sub (list_to_map [("time_in_hospital", f_time_in_hospital f)]));
     ("clinical",
      Sub (list_to_map [("num_medications", f_num_medications f);
                        ("num_lab_procedures", f_num_lab_procedures f);
                        ("number_diagnoses", f_number_diagnoses f)]));
     ("utilization",
      Sub (list_to_map [("number_inpatient", f_number_inpatient f);
                        ("number_emergency", f_number_emergency f)]));
     ("diagnoses", Sub (list_to_map [("primary", f_primary_diagnosis f)]));
     ("outcome",
      Sub (list_to_map [("readmitted_30days", f_readmitted_30days f);
                        ("readmitted_30days_label", f_readmitted_label f)]))].

(** The row that flattening produces from the twelve values. *)
Definition row_of (f : Fields) : row :=
  list_to_map
    [("age", f_age f); ("gender", f_gender f); ("race", f_race f);
     ("time_in_hospital", f_time_in_hospital f);
     ("num_medications", f_num_medications f);
     ("num_lab_procedures", f_num_lab_procedures f);
     ("number_diagnoses", f_number_diagnoses f);
     ("number_inpatient", f_number_inpatient f);
     ("number_emergency", f_number_emergency f);
     ("primary_diagnosis", f_primary_diagnosis f);
     ("readmitted_30days", f_readmitted_30days f);
     ("readmitted_label", f_readmitted_label f)].

(** A fixture. *)
Definition fixture : Fields :=
  mkFields (VStr "[60-70)") (VStr "Male") (VStr "Caucasian") (VInt 3)
    (VInt 10) (VInt 40) (VInt 7) (VInt 0) (VInt 0) (VStr "Other") (VInt 0)
    (VStr "No").

(** The six sub-documents the loader opens, and every key it may look up. *)
Definition sections : list string :=
  ["demographics"; "admission"; "clinical"; "utilization"; "diagnoses";
   "outcome"].

Definition schema_keys : list string :=
  sections
  ++ ["age"; "gender"; "race"; "time_in_hospital"; "num_medications";
      "num_lab_procedures"; "number_diagnoses"; "number_inpatient";
      "number_emergency"; "primary"; "readmitted_30days";
      "readmitted_30days_label"].

(** A section that is present but cannot be indexed by a field name. *)
Definition not_a_sub_document (doc : document) (section : string) : Prop :=
  exists entry,
    doc !! section = Some entry /\ forall fields, entry <> Sub fields.

(** The keys of a row dictionary, in the order lines 84-95 write them. *)
Definition row_labels : list string :=
  ["age"; "gender"; "race"; "time_in_hospital"; "num_medications";
   "num_lab_procedures"; "number_diagnoses"; "number_inpatient";
   "number_emergency"; "primary_diagnosis"; "readmitted_30days";
   "readmitted_label"].

(** The table of line 99, [pd.DataFrame(rows)]: the rows under the column
    labels their dictionaries give, which are none when there is no row
    and the twelve keys otherwise (every row the loop builds has exactly
    these). *)
Record Table : Type := mkTable {
  labels : list string;
  body : list row
}.

Definition pd_DataFrame (rows : list row) : Table :=
  mkTable (match rows with [] => [] | _ :: _ => row_labels end) rows.

(** [load_data] (lines 75-100): the connection, the read of the whole
    collection, one row per document, the table.  [find collection] stands
    for [list(collection.find({}))], lines 77-78, which may raise like any
    call to the store; no handler surrounds it. *)
Definition load_data (secrets : gmap string (gmap string string))
    (fallback_uri : string) (ping : string -> bool)
    (find : Connection.Collection -> result (list document)) : result Table :=
  collection ← Connection.get_database_connection secrets fallback_uri ping;
  data ← find collection;
  rows ← load_rows data;
  Ok (pd_DataFrame rows).

End Loader.

(* ===================================================================== *)
(** ** The aggregations of the pages (lines 122-431)                      *)
(* ===================================================================== *)

Module Aggregator.

(** One row of the table, with the column types of the data model:
    categorical columns hold strings, the others integers. *)
Record PatientRecord : Type := mkPatientRecord {
  age : string;
  gender : string;
  race : string;
  time_in_hospital : Z;
  num_medications : Z;
  num_lab_procedures : Z;
  number_diagnoses : Z;
  number_inpatient : Z;
  number_emergency : Z;
  primary_diagnosis : string;
  readmitted_30days : Z;
  readmitted_label : string
}.

Definition column_names : list string :=
  ["age"; "gender"; "race"; "time_in_hospital"; "num_medications";
   "num_lab_procedures"; "number_diagnoses"; "number_inpatient";
   "number_emergency"; "primary_diagnosis"; "readmitted_30days";
   "readmitted_label"].

(** A table knows its column labels apart from its rows. *)
Record DataFrame : Type := mkDataFrame {
  columns : list string;
  records : list PatientRecord
}.

(** Line 99, [pd.DataFrame(rows)]: the columns are the keys of the row
    dictionaries, so a table built from no rows has no column at all. *)
Definition pd_DataFrame (rows : list PatientRecord) : DataFrame :=
  mkDataFrame (match rows with [] => [] | _ :: _ => column_names end) rows.

(** [len(df)] *)
Definition len (df : DataFrame) : Z := Z.of_nat (length (records df)).

(** [df[name]]: the column as a series, or [KeyError] when the table has no
    such label.  [field] reads the column [name] off a row. *)
Definition getitem {A : Type} (df : DataFrame) (name : string)
    (field : PatientRecord -> A) : result (list A) :=
  if bool_decide (name ∈ columns df) then Ok (field <$> records df)
  else Raise (KeyError name).

(** *** Series reductions *)

(** [s.sum()] *)
Definition sum (s : list Z) : Z := foldr Z.add 0 s.

(** [s.mean()], as an exact fraction where pandas rounds the quotient to
    binary64.  Every series the pages reduce is non-empty (a whole column
    of a table that has columns, or the members of a group); on an empty
    one pandas yields NaN. *)
Definition mean (s : list Z) : Q :=
  (inject_Z (sum s) / inject_Z (Z.of_nat (length s)))%Q.

(** [(s >= t).sum()] *)
Definition count_ge (s : list Z) (t : Z) : Z :=
  Z.of_nat (length (filter (fun x => t <= x) s)).

(** *** Grouping *)

(** Keys that [groupby] can put in ascending order. *)
Class KeyOrd (K : Type) : Type := cmp : K -> K -> comparison.

#[global] Instance Z_KeyOrd : KeyOrd Z := Z.compare.
#[global] Instance string_KeyOrd : KeyOrd string := String.compare.
#[global] Instance pair_KeyOrd {K1 K2 : Type} `{KeyOrd K1} `{KeyOrd K2} :
  KeyOrd (K1 * K2) := fun a b =>
  match cmp a.1 b.1 with
  | Eq => cmp a.2 b.2
  | c => c
  end.

Section groupby.
Context {K : Type} `{KeyOrd K}.

(** Adding one row to the groups seen so far: groups stay in ascending key
    order and a group keeps its members in row order. *)
Fixpoint group_insert (k : K) (r : PatientRecord)
    (groups : list (K * list PatientRecord)) : list (K * list PatientRecord) :=
  match groups with
  | [] => [(k, [r])]
  | (k', members) :: groups' =>
      match cmp k k' with
      | Eq => (k', (members ++ [r])%list) :: groups'
      | Lt => (k, [r]) :: groups
      | Gt => (k', members) :: group_insert k r groups'
      end
  end.

(** [df.groupby(key)] with the default [sort=True]. *)
Definition groupby (key : PatientRecord -> K) (rows : list PatientRecord) :
    list (K * list PatientRecord) :=
  fold_left (fun groups r => group_insert (key r) r groups) rows [].

(** [.size()] *)
Definition size (groups : list (K * list PatientRecord)) : list (K * Z) :=
  (fun g => (g.1, Z.of_nat (length g.2))) <$> groups.

End groupby.

(** A row of [.agg(['sum', 'count', 'mean']).reset_index()] under the
    column names the pages give it. *)
Record AggregateRow (K : Type) : Type := mkAggregateRow {
  Key : K;
  Readmissions : Z;
  Total : Z;
  Rate : Q
}.

Arguments mkAggregateRow {K} _ _ _ _.
Arguments Key {K} _.
Arguments Readmissions {K} _.
Arguments Total {K} _.
Arguments Rate {K} _.

Section readmission_rates.
Context {K : Type} `{KeyOrd K}.

(** [...['readmitted_30days'].agg(['sum', 'count', 'mean'])] of one group *)
Definition agg_sum_count_mean (g : K * list PatientRecord) : AggregateRow K :=
  let outcome := readmitted_30days <$> g.2 in
  mkAggregateRow g.1 (sum outcome) (Z.of_nat (length outcome)) (mean outcome).

(** Lines 244-245, 352-353, 368-369 and 386-387:
    [df.groupby(by)['readmitted_30days'].agg(['sum','count','mean'])
       .reset_index()] *)
Definition readmission_rate_by (df : DataFrame) (by_name : string)
    (key : PatientRecord -> K) : result (list (AggregateRow K)) :=
  _ ← getitem df by_name key;
  _ ← getitem df "readmitted_30days" readmitted_30days;
  Ok (agg_sum_count_mean <$> groupby key (records df)).

(** Lines 246, 354, 370 and 388: [t['Rate'] = t['Rate'] * 100] *)
Definition percent (t : list (AggregateRow K)) : list (AggregateRow K) :=
  (fun a => mkAggregateRow (Key a) (Readmissions a) (Total a) (Rate a * 100)%Q)
    <$> t.

(** [t.sort_values('Rate', ascending=False)].  pandas reverses the column,
    sorts it ascending with its default [kind='quicksort'] and reverses
    the outcome.  That sort handles an array of at most 17 entries by
    insertion alone, which leaves equal rates in the order it meets them,
    and this is the sort defined here.  A longer array it partitions
    first, and the order it then leaves among equal rates is not the one
    of this definition: on tables of more than 17 rows the definition
    stands for the sort only as far as the order of the rates goes, and no
    statement below says more of them. *)
Fixpoint insert_by_rate (a : AggregateRow K) (t : list (AggregateRow K)) :
    list (AggregateRow K) :=
  match t with
  | [] => [a]
  | b :: t' =>
      if Qle_bool (Rate a) (Rate b) then a :: t else b :: insert_by_rate a t'
  end.

Definition sort_ascending (t : list (AggregateRow K)) : list (AggregateRow K) :=
  foldr insert_by_rate [] t.

Definition sort_values_Rate_descending (t : list (AggregateRow K)) :
    list (AggregateRow K) :=
  rev (sort_ascending (rev t)).

End readmission_rates.

(** *** Overview page (lines 129-204) and sidebar (line 122) *)

Definition readmit_count (df : DataFrame) : result Z :=
  s ← getitem df "readmitted_30days" readmitted_30days; Ok (sum s).

Definition readmit_pct (df : DataFrame) : result Q :=
  c ← readmit_count df; Ok (inject_Z c / inject_Z (len df) * 100)%Q.

Definition avg_stay (df : DataFrame) : result Q :=
  s ← getitem df "time_in_hospital" time_in_hospital; Ok (mean s).

Definition avg_meds (df : DataFrame) : result Q :=
  s ← getitem df "num_medications" num_medications; Ok (mean s).

(** *** Demographics page (lines 209-258) *)

(** Line 228: [df.groupby(['gender', 'readmitted_label']).size()] *)
Definition gender_counts (df : DataFrame) :
    result (list ((string * string) * Z)) :=
  _ ← getitem df "gender" gender;
  _ ← getitem df "readmitted_label" readmitted_label;
  Ok (size (groupby (fun r => (gender r, readmitted_label r)) (records df))).

(** Lines 244-247. *)
Definition race_readmit (df : DataFrame) : result (list (AggregateRow string)) :=
  t ← readmission_rate_by df "race" race;
  Ok (sort_values_Rate_descending (percent t)).

(** *** Clinical page (lines 263-337) *)

Record StatsRow : Type := mkStatsRow {
  status : string;
  avg_medications : Q;
  avg_lab_procedures : Q;
  avg_diagnoses : Q;
  avg_hospital_days : Q
}.

(** [numpy.rint]: the nearest integer, a tie going to the even one. *)
Definition rint (q : Q) : Z :=
  let f := Qfloor q in
  match (q - inject_Z f ?= 1 # 2)%Q with
  | Lt => f
  | Gt => f + 1
  | Eq => if Z.even f then f else f + 1
  end.

(** [.round(2)] on a column of means: scale by 100, round to the nearest
    integer, scale back; on exact fractions where numpy has binary64. *)
Definition round2 (q : Q) : Q := (inject_Z (rint (q * 100)) / 100)%Q.

(** Lines 329-334. *)
Definition stats_df (df : DataFrame) : result (list StatsRow) :=
  _ ← getitem df "readmitted_label" readmitted_label;
  _ ← getitem df "num_medications" num_medications;
  _ ← getitem df "num_lab_procedures" num_lab_procedures;
  _ ← getitem df "number_diagnoses" number_diagnoses;
  _ ← getitem df "time_in_hospital" time_in_hospital;
  Ok ((fun g : string * list PatientRecord =>
         mkStatsRow g.1
           (round2 (mean (num_medications <$> g.2)))
           (round2 (mean (num_lab_procedures <$> g.2)))
           (round2 (mean (number_diagnoses <$> g.2)))
           (round2 (mean (time_in_hospital <$> g.2))))
        <$> groupby readmitted_label (records df)).

(** *** Readmission patterns page (lines 342-431) *)

(** Lines 352-354. *)
Definition inpatient_readmit (df : DataFrame) : result (list (AggregateRow Z)) :=
  t ← readmission_rate_by df "number_inpatient" number_inpatient;
  Ok (percent t).

(** Lines 368-370. *)
Definition emergency_readmit (df : DataFrame) : result (list (AggregateRow Z)) :=
  t ← readmission_rate_by df "number_emergency" number_emergency;
  Ok (percent t).

(** Lines 357 and 373: [t[t['Prior Visits'] <= 5]] *)
Definition at_most_5 (t : list (AggregateRow Z)) : list (AggregateRow Z) :=
  filter (fun a => Key a <= 5) t.

(** Lines 386-389. *)
Definition diag_readmit (df : DataFrame) : result (list (AggregateRow string)) :=
  t ← readmission_rate_by df "primary_diagnosis" primary_diagnosis;
  Ok (sort_values_Rate_descending
        (filter (fun a => 100 <= Total a) (percent t))).

(** Line 392: [diag_readmit.head(10)] *)
Definition top10 (df : DataFrame) : result (list (AggregateRow string)) :=
  t ← diag_readmit df; Ok (take 10 t).

(** Lines 411, 419 and 427: [(df[name] >= t).sum()] *)
Definition threshold_count (df : DataFrame) (name : string)
    (field : PatientRecord -> Z) (t : Z) : result Z :=
  s ← getitem df name field; Ok (count_ge s t).




(** Lines 415, 423 and 431: [count / len(df) * 100] *)
Definition pct_of (count : result Z) (df : DataFrame) : result Q :=
  c ← count; Ok (inject_Z c / inject_Z (len df) * 100)%Q.

(** *** Notions the statements use *)

(** What grouping needs of a comparison for its output to be in strictly
    ascending key order. *)
Class KeyOrdLaws (K : Type) `{KeyOrd K} : Prop := {
  cmp_gt_lt : forall a b : K, cmp a b = Gt -> cmp b a = Lt;
  cmp_lt_trans : forall a b c : K, cmp a b = Lt -> cmp b c = Lt -> cmp a c = Lt
}.

(** Strictly ascending keys, and groups in that order. *)
Definition key_lt {K : Type} `{KeyOrd K} (a b : K) : Prop := cmp a b = Lt.

Definition group_lt {K : Type} `{KeyOrd K}
    (g h : K * list PatientRecord) : Prop :=
  key_lt g.1 h.1.

(** The outcome column holds 0 or 1. *)
Definition zero_one (x : Z) : Prop := x = 0 \/ x = 1.

Definition binary_outcome (r : PatientRecord) : Prop :=
  zero_one (readmitted_30days r).

(** The total of all group sizes. *)
Definition sum_totals {K : Type} (t : list (AggregateRow K)) : Z :=
  sum (Total <$> t).

(** A group has a member, and all its members satisfy [P]. *)
Definition populated {K : Type} (P : PatientRecord -> Prop)
    (g : K * list PatientRecord) : Prop :=
  g.2 <> [] /\ Forall P g.2.

(** Ascending by rate, equal rates ordered by [S]. *)
Definition rate_asc_then {K : Type} (S : relation (AggregateRow K)) :
    relation (AggregateRow K) :=
  fun a b => (Rate a < Rate b)%Q \/ ((Rate a == Rate b)%Q /\ S a b).

(** Descending by rate, equal rates ordered by [S]. *)
Definition rate_desc_then {K : Type} (S : relation (AggregateRow K)) :
    relation (AggregateRow K) :=
  fun a b => (Rate b < Rate a)%Q \/ ((Rate a == Rate b)%Q /\ S a b).

(** The row as [agg] leaves it: a rate that is a fraction. *)
Definition fraction_row {K : Type} (a : AggregateRow K) : Prop :=
  1 <= Total a
  /\ (Rate a == inject_Z (Readmissions a) / inject_Z (Total a))%Q
  /\ (0 <= Rate a)%Q /\ (Rate a <= 1)%Q.

(** The row as the pages carry it, after [Rate * 100]. *)
Definition percent_row {K : Type} (a : AggregateRow K) : Prop :=
  1 <= Total a
  /\ (Rate a == inject_Z (Readmissions a) / inject_Z (Total a) * 100)%Q
  /\ (0 <= Rate a)%Q /\ (Rate a <= 100)%Q.

(** Rows in ascending order of their keys. *)
Definition key_order {K : Type} `{KeyOrd K} : relation (AggregateRow K) :=
  fun a b => key_lt (Key a) (Key b).






(** *** Fixtures *)

(** A patient record with the fields the scenarios vary. *)
Definition patient (inpatient emergency medications days : Z)
    (diagnosis : string) (readmitted : Z) : PatientRecord :=
  mkPatientRecord "[60-70)" "Male" "Caucasian" days medications 40 7
    inpatient emergency diagnosis readmitted
    (if readmitted =? 1 then "Yes" else "No").

(** The three records of the specification's scenario. *)
Definition three_records : list PatientRecord :=
  [patient 0 0 10 3 "Other" 0; patient 2 1 25 8 "Circulatory" 1;
   patient 0 0 5 1 "Other" 0].

(** One readmitted patient. *)
Definition one_readmitted : list PatientRecord :=
  [patient 2 1 25 8 "Circulatory" 1].

(** Two diagnoses with the same rate: 50 of 100 for "A", 100 of 200 for
    "B". *)
Definition tie_records : list PatientRecord :=
  (replicate 50 (patient 0 0 10 3 "A" 1)
   ++ replicate 50 (patient 0 0 10 3 "A" 0)
   ++ replicate 100 (patient 0 0 10 3 "B" 1)
   ++ replicate 100 (patient 0 0 10 3 "B" 0))%list.




(** Their rows in the ranking. *)
Definition tie_A : AggregateRow string :=
  mkAggregateRow "A" 50 100 (5000 # 100).

Definition tie_B : AggregateRow string :=
  mkAggregateRow "B" 100 200 (10000 # 200).

(** *** Further notions *)

(** A comparison that answers [Eq] exactly on equal keys. *)
Class KeyOrdEq (K : Type) `{KeyOrd K} : Prop :=
  cmp_eq_iff : forall a b : K, cmp a b = Eq <-> a = b.

(** All members of all groups, group after group. *)
Definition members {K : Type} (groups : list (K * list PatientRecord)) :
    list PatientRecord :=
  concat (snd <$> groups).

(** The readmissions of all groups together. *)
Definition sum_readmissions {K : Type} (t : list (AggregateRow K)) : Z :=
  sum (Readmissions <$> t).

End Aggregator.

(* ===================================================================== *)
(** ** The heuristic risk estimator (lines 504-582)                       *)
(* ===================================================================== *)

Module RiskEstimator.

(** The ten widgets of the form (lines 511-541).  Sliders yield Python
    integers, select boxes yield strings. *)
Record FormInput : Type := mkFormInput {
  age_input : string;
  gender_input : string;
  race_input : string;
  time_hospital : Z;
  num_medications : Z;
  num_lab : Z;
  num_diagnoses : Z;
  num_inpatient : Z;
  num_emergency : Z;
  primary_diag : string
}.

(** Python's [min(a, b)] on two floats: the first argument unless the
    second is strictly smaller. *)
Definition py_min (a b : float) : float :=
  if PrimFloat.ltb b a then b else a.

(** [primary_diag in ['Circulatory', 'Respiratory']] *)
Definition high_risk_diag (d : string) : bool :=
  bool_decide (d ∈ ["Circulatory"; "Respiratory"]).

(** Lines 554-566: the running sum, updated by one [if] after the other. *)
Definition raw_score (i : FormInput) : float :=
  let risk_score := 0.11%float in
  let risk_score :=
    if 1 <=? num_inpatient i then (risk_score + 0.15)%float else risk_score in
  let risk_score :=
    if 1 <=? num_emergency i then (risk_score + 0.10)%float else risk_score in
  let risk_score :=
    if 20 <=? num_medications i then (risk_score + 0.08)%float else risk_score in
  let risk_score :=
    if 7 <=? time_hospital i then (risk_score + 0.07)%float else risk_score in
  let risk_score :=
    if high_risk_diag (primary_diag i) then (risk_score + 0.05)%float
    else risk_score in
  risk_score.

(** Line 568. *)
Definition risk_score (i : FormInput) : float :=
  py_min (raw_score i) 0.85%float.

(** Lines 571-582. *)
Definition risk_level (i : FormInput) : string :=
  if PrimFloat.ltb (risk_score i) 0.20%float then "LOW"
  else if PrimFloat.ltb (risk_score i) 0.40%float then "MODERATE"
  else "HIGH".

(** The rule table as the specification words it: a base rate plus one
    weight per satisfied condition, then the cap, then the two thresholds. *)
Definition weight (cond : bool) (w : float) : float :=
  if cond then w else 0%float.

Definition table_score (inpatient emergency medications days : Z)
    (diag : string) : float :=
  py_min
    (0.11
     + weight (1 <=? inpatient)%Z 0.15
     + weight (1 <=? emergency)%Z 0.10
     + weight (20 <=? medications)%Z 0.08
     + weight (7 <=? days)%Z 0.07
     + weight (bool_decide (diag = "Circulatory" ∨ diag = "Respiratory")) 0.05)%float
    0.85%float.

Definition table_level (score : float) : string :=
  if PrimFloat.ltb score 0.20%float then "LOW"
  else if PrimFloat.ltb score 0.40%float then "MODERATE"
  else "HIGH".

(** Two patients that differ in the inputs the rule table does not read. *)
Definition patient_a : FormInput :=
  mkFormInput "[60-70)" "Male" "Caucasian" 8 25 40 7 2 1 "Circulatory".

Definition patient_b : FormInput :=
  mkFormInput "[20-30)" "Female" "Asian" 8 25 93 2 2 1 "Circulatory".

(** [f"{n}"] for a Python integer. *)
Definition str (n : Z) : string := NilZero.string_of_int (Z.to_int n).

(** Lines 618-629: the factors listed under the result, appended in the
    order of the tests. *)
Definition risk_factors (i : FormInput) : list string :=
  let risk_factors := [] in
  let risk_factors :=
    if 1 <=? num_inpatient i
    then (risk_factors
          ++ [("• Prior hospitalizations: " ++ str (num_inpatient i)
              ++ " visit(s)")%string])%list
    else risk_factors in
  let risk_factors :=
    if 1 <=? num_emergency i
    then (risk_factors
          ++ [("• Prior emergency visits: " ++ str (num_emergency i)
              ++ " visit(s)")%string])%list
    else risk_factors in
  let risk_factors :=
    if 20 <=? num_medications i
    then (risk_factors
          ++ [("• High medication count: " ++ str (num_medications i)
              ++ " medications")%string])%list
    else risk_factors in
  let risk_factors :=
    if 7 <=? time_hospital i
    then (risk_factors
          ++ [("• Extended hospital stay: " ++ str (time_hospital i)
              ++ " days")%string])%list
    else risk_factors in
  let risk_factors :=
    if high_risk_diag (primary_diag i)
    then (risk_factors
          ++ [("• High-risk diagnosis: " ++ primary_diag i)%string])%list
    else risk_factors in
  risk_factors.

(** What the page shows below the heading (lines 631-635): one warning per
    factor, or a single success message when the list is empty. *)
Inductive message : Type :=
  | warning (text : string)
  | success (text : string).

Definition factor_messages (i : FormInput) : list message :=
  match risk_factors i with
  | [] => [success "✅ No major risk factors identified"]
  | factors => warning <$> factors
  end.

(** Line 651: every intervention box is ticked by default exactly for the
    level HIGH. *)
Definition interventions_ticked (i : FormInput) : bool :=
  String.eqb (risk_level i) "HIGH".

End RiskEstimator.

(* ===================================================================== *)
(** * Part II: properties                                                 *)
(* ===================================================================== *)

Module RiskEstimatorProps.
Import RiskEstimator.

Lemma high_risk_diag_spec (d : string) :
  high_risk_diag d = bool_decide (d = "Circulatory" ∨ d = "Respiratory").
Proof.
  unfold high_risk_diag. apply bool_decide_ext.
  rewrite !elem_of_cons, elem_of_nil. tauto.
Qed.

Ltac split_conds i :=
  destruct (1 <=? num_inpatient i), (1 <=? num_emergency i),
    (20 <=? num_medications i), (7 <=? time_hospital i),
    (high_risk_diag (primary_diag i)).

(** C1. For every input the estimator's score is the rule table's sum
    0.11 + 0.15 [inpatient >= 1] + 0.10 [emergency >= 1] + 0.08 [meds >= 20]
    + 0.07 [days >= 7] + 0.05 [diagnosis Circulatory or Respiratory], capped
    at 0.85, and the level is LOW below 0.20, MODERATE below 0.40, HIGH
    otherwise; the input inpatient=1, emergency=0, meds=10, days=3,
    diag="Other" scores 0.26 and is MODERATE. *)
Theorem risk_score_rule_table :
  (forall i : FormInput,
     risk_score i
       = table_score (num_inpatient i) (num_emergency i) (num_medications i)
           (time_hospital i) (primary_diag i)
     /\ risk_level i
        = table_level
            (table_score (num_inpatient i) (num_emergency i)
               (num_medications i) (time_hospital i) (primary_diag i)))
  /\ (forall age gender race lab diagnoses,
        let i := mkFormInput age gender race 3 10 lab diagnoses 1 0 "Other" in
        risk_score i = 0.26%float /\ risk_level i = "MODERATE").
Proof.
  split.
  - intros i.
    assert (Hscore : risk_score i
              = table_score (num_inpatient i) (num_emergency i)
                  (num_medications i) (time_hospital i) (primary_diag i)).
    { unfold risk_score, raw_score, table_score.
      rewrite <- high_risk_diag_spec.
      split_conds i; reflexivity. }
    split; [exact Hscore|].
    unfold risk_level. rewrite Hscore. reflexivity.
  - intros. split; reflexivity.
Qed.

(** C9. Two inputs that agree on prior inpatient count, prior emergency
    count, medication count, hospital days and diagnosis category get the
    same score and the same level, whatever their age group, gender, race,
    lab procedures and number of diagnoses. *)
Theorem risk_ignores_other_inputs (i j : FormInput) :
  num_inpatient i = num_inpatient j ->
  num_emergency i = num_emergency j ->
  num_medications i = num_medications j ->
  time_hospital i = time_hospital j ->
  primary_diag i = primary_diag j ->
  risk_score i = risk_score j /\ risk_level i = risk_level j.
Proof.
  intros Hin Hem Hmed Hdays Hdiag.
  assert (Hscore : risk_score i = risk_score j).
  { unfold risk_score, raw_score.
    rewrite Hin, Hem, Hmed, Hdays, Hdiag. reflexivity. }
  split; [exact Hscore|].
  unfold risk_level. rewrite Hscore. reflexivity.
Qed.

Lemma risk_ignores_other_inputs_witness :
  risk_score patient_a = risk_score patient_b
  /\ risk_level patient_a = risk_level patient_b.
Proof.
  apply (risk_ignores_other_inputs patient_a patient_b); reflexivity.
Defined.

(** C10. Every score lies between 0.11 and 0.56; 0.56 is the sum of the
    base rate and all five weights; the sum before the cap never exceeds
    0.85, so the cap returns it unchanged. *)
Theorem risk_score_range :
  (forall i : FormInput,
     PrimFloat.leb 0.11 (risk_score i) = true
     /\ PrimFloat.leb (risk_score i) 0.56 = true
     /\ PrimFloat.ltb 0.85 (raw_score i) = false
     /\ risk_score i = raw_score i)
  /\ (0.11 + 0.15 + 0.10 + 0.08 + 0.07 + 0.05 = 0.56)%float
  /\ (forall age gender race lab diagnoses,
        raw_score
          (mkFormInput age gender race 10 30 lab diagnoses 2 2 "Respiratory")
        = 0.56%float).
Proof.
  split; [|split; [reflexivity|intros; reflexivity]].
  intros i. unfold risk_score, raw_score.
  split_conds i; repeat split; reflexivity.
Qed.

(** X18. Raising the prior inpatient count, the prior emergency count,
    the medication count or the hospital days of an input, with the same
    diagnosis, never lowers the score, never turns a level back to LOW and
    never takes a HIGH away. *)
Theorem risk_score_monotone (i j : FormInput) :
  num_inpatient i <= num_inpatient j ->
  num_emergency i <= num_emergency j ->
  num_medications i <= num_medications j ->
  time_hospital i <= time_hospital j ->
  primary_diag i = primary_diag j ->
  PrimFloat.leb (risk_score i) (risk_score j) = true
  /\ (risk_level j = "LOW" -> risk_level i = "LOW")
  /\ (risk_level i = "HIGH" -> risk_level j = "HIGH").
Proof.
  intros Hin Hem Hmed Hdays Hdiag.
  assert (H1 : (1 <=? num_inpatient i) = true -> (1 <=? num_inpatient j) = true)
    by (rewrite !Z.leb_le; lia).
  assert (H2 : (1 <=? num_emergency i) = true -> (1 <=? num_emergency j) = true)
    by (rewrite !Z.leb_le; lia).
  assert (H3 : (20 <=? num_medications i) = true
               -> (20 <=? num_medications j) = true)
    by (rewrite !Z.leb_le; lia).
  assert (H4 : (7 <=? time_hospital i) = true -> (7 <=? time_hospital j) = true)
    by (rewrite !Z.leb_le; lia).
  unfold risk_level, risk_score, raw_score. rewrite Hdiag.
  destruct (1 <=? num_inpatient i), (1 <=? num_inpatient j);
    try (specialize (H1 eq_refl); discriminate H1);
  destruct (1 <=? num_emergency i), (1 <=? num_emergency j);
    try (specialize (H2 eq_refl); discriminate H2);
  destruct (20 <=? num_medications i), (20 <=? num_medications j);
    try (specialize (H3 eq_refl); discriminate H3);
  destruct (7 <=? time_hospital i), (7 <=? time_hospital j);
    try (specialize (H4 eq_refl); discriminate H4);
  destruct (high_risk_diag (primary_diag j));
  (split; [reflexivity|split; intros Hlevel; first [reflexivity|discriminate Hlevel]]).
Qed.

Lemma risk_score_monotone_witness :
  PrimFloat.leb
    (risk_score
       (mkFormInput "[60-70)" "Male" "Caucasian" 3 10 40 7 0 0 "Circulatory"))
    (risk_score patient_a) = true
  /\ (risk_level patient_a = "LOW" ->
      risk_level
        (mkFormInput "[60-70)" "Male" "Caucasian" 3 10 40 7 0 0 "Circulatory")
      = "LOW")
  /\ (risk_level
        (mkFormInput "[60-70)" "Male" "Caucasian" 3 10 40 7 0 0 "Circulatory")
      = "HIGH" ->
      risk_level patient_a = "HIGH").
Proof.
  apply (risk_score_monotone
           (mkFormInput "[60-70)" "Male" "Caucasian" 3 10 40 7 0 0 "Circulatory")
           patient_a);
    simpl; first [lia|reflexivity].
Defined.

(** X19. The factors listed under a result agree with the result: none is
    listed, and the success message is shown instead, exactly when the
    score does not exceed the base rate 0.11; a LOW result lists at most
    one factor, a HIGH result at least three, and four or more factors
    always give HIGH; the intervention boxes are ticked only with at least
    three factors listed. *)
Theorem risk_factors_match_level (i : FormInput) :
  let n := length (risk_factors i) in
  (n = 0%nat <-> PrimFloat.ltb 0.11 (risk_score i) = false)
  /\ (n = 0%nat
      <-> factor_messages i = [success "✅ No major risk factors identified"])
  /\ length (factor_messages i) = Nat.max 1 n
  /\ (risk_level i = "LOW" -> (n <= 1)%nat)
  /\ (risk_level i = "HIGH" -> (3 <= n)%nat)
  /\ ((4 <= n)%nat -> risk_level i = "HIGH")
  /\ (interventions_ticked i = true -> (3 <= n)%nat).
Proof.
  cbv zeta.
  unfold factor_messages, interventions_ticked, risk_level, risk_score,
    raw_score, risk_factors.
  split_conds i; cbn [app length fmap list_fmap];
    repeat split; intros;
    first [ reflexivity | discriminate | lia
          | vm_compute; reflexivity
          | match goal with
            | H : _ |- _ => vm_compute in H; first [discriminate H | lia]
            end ].
Qed.

End RiskEstimatorProps.

(* ===================================================================== *)
(** ** The data-store connection                                          *)
(* ===================================================================== *)

Module ConnectionProps.
Import Connection.

(** C4, refuted as stated: with nothing configured the function connects
    to the literal endpoint of line 51 and returns its collection. *)
Lemma absent_configuration_connects :
  configured ∅ = None
  /\ get_database_connection ∅ literal_uri only_literal_answers
     = Ok (mkCollection literal_uri "healthcare_db" "patient_readmissions").
Proof. split; reflexivity. Qed.

(** C4, amended. With no endpoint configured the connection is attempted
    at the literal endpoint of line 51, and with one configured at that
    one; in both cases a collection is returned when the endpoint answers
    the ping and the run is stopped when it does not, so the function
    fails exactly when the endpoint in use does not answer. *)
Theorem connection_outcome
    (secrets : gmap string (gmap string string)) (fallback_uri : string)
    (ping : string -> bool) :
  (configured secrets = None ->
   get_database_connection secrets fallback_uri ping
   = if ping fallback_uri
     then Ok (mkCollection fallback_uri "healthcare_db" "patient_readmissions")
     else Raise StopException)
  /\ (forall uri, configured secrets = Some uri ->
       get_database_connection secrets fallback_uri ping
       = if ping uri
         then Ok (mkCollection uri "healthcare_db" "patient_readmissions")
         else Raise StopException)
  /\ (raises (get_database_connection secrets fallback_uri ping)
      <-> ping (MONGODB_URI secrets fallback_uri) = false)
  /\ (forall c, get_database_connection secrets fallback_uri ping = Ok c ->
       ping (client_uri c) = true).
Proof.
  unfold get_database_connection, MONGODB_URI.
  split; [|split; [|split]].
  - intros ->. reflexivity.
  - intros uri ->. reflexivity.
  - destruct (ping _); simpl; intuition congruence.
  - intros c. destruct (ping _) eqn:Hping; [|discriminate].
    intros [= <-]. exact Hping.
Qed.

End ConnectionProps.

(* ===================================================================== *)
(** ** The record loader                                                  *)
(* ===================================================================== *)

Module LoaderProps.
Import Loader.

Lemma flatten_shaped (doc : document) (f : Fields) :
  shaped doc f -> flatten doc = Ok (row_of f).
Proof.
  intros (H1 & H2 & H3 & H4 & H5 & H6 & H7 & H8 & H9 & H10 & H11 & H12).
  unfold flatten.
  rewrite H1, H2, H3, H4, H5, H6, H7, H8, H9, H10, H11, H12.
  reflexivity.
Qed.

Lemma read_back_row_of (f : Fields) : read_back (row_of f) = Some f.
Proof. destruct f. reflexivity. Qed.

Lemma synthetic_shaped (f : Fields) : shaped (synthetic f) f.
Proof. destruct f. repeat split. Qed.

(** C7. A document that holds twelve values at the nested paths of the
    data-store boundary flattens to a row whose twelve columns read back
    as exactly those values, constructor and content alike, and the row
    has no other column. *)
Theorem flatten_round_trip (doc : document) (f : Fields) :
  shaped doc f ->
  exists r : row,
    flatten doc = Ok r
    /\ read_back r = Some f
    /\ dom r = list_to_set Aggregator.column_names.
Proof.
  intros Hshape. exists (row_of f).
  split; [apply flatten_shaped; exact Hshape|].
  split; [apply read_back_row_of|].
  unfold row_of. rewrite dom_list_to_map_L. reflexivity.
Qed.

Lemma flatten_round_trip_witness :
  exists r : row,
    flatten (synthetic fixture) = Ok r
    /\ read_back r = Some fixture
    /\ dom r = list_to_set Aggregator.column_names.
Proof.
  apply (flatten_round_trip (synthetic fixture) fixture).
  repeat split.
Defined.

(** *** Which documents load *)

Lemma bind_Ok_step {A B : Type} (a : A) (k : A -> result B) :
  (Ok a ≫= k) = k a.
Proof. reflexivity. Qed.

Lemma bind_Raise_step {A B : Type} (e : exn) (k : A -> result B) :
  (Raise e ≫= k) = Raise e.
Proof. reflexivity. Qed.

(** Open the next lookup of [flatten]; a failed one ends the goal with
    [tac]. *)
Ltac next_lookup tac :=
  lazymatch goal with
  | |- context [mbind _ (nested ?d ?s ?f)] =>
      let H := fresh "Hlookup" in
      destruct (nested d s f) eqn:H;
      [rewrite bind_Ok_step|rewrite bind_Raise_step; tac]
  end.

Lemma flatten_returns_iff_aux (doc : document) :
  returns (flatten doc) <-> exists f, shaped doc f.
Proof.
  split.
  - unfold flatten. do 12 next_lookup ltac:(intros []).
    intros _.
    eexists (mkFields _ _ _ _ _ _ _ _ _ _ _ _).
    unfold shaped. simpl. repeat split; eassumption.
  - intros [f Hf]. rewrite (flatten_shaped doc f Hf). exact I.
Qed.

(** X1. A document flattens to a row exactly when it holds all twelve
    nested paths. *)
Theorem flatten_returns_iff (doc : document) :
  returns (flatten doc) <-> exists f, shaped doc f.
Proof. apply flatten_returns_iff_aux. Qed.

Lemma nested_Raise (doc : document) (section field : string) (e : exn) :
  nested doc section field = Raise e ->
  e = KeyError section \/ e = KeyError field
  \/ (e = TypeError /\ not_a_sub_document doc section).
Proof.
  unfold nested, getitem, not_a_sub_document.
  destruct (doc !! section) as [[fields|v|]|] eqn:Hsection; simpl.
  - destruct (fields !! field); [discriminate|].
    intros [= <-]. right. left. reflexivity.
  - intros [= <-]. right. right. split; [reflexivity|].
    eexists. split; [reflexivity|]. discriminate.
  - intros [= <-]. right. right. split; [reflexivity|].
    eexists. split; [reflexivity|]. discriminate.
  - intros [= <-]. left. reflexivity.
Qed.

(** X2. When flattening fails, the exception is either a [KeyError] that
    names one of the six sections or twelve fields of the schema, or a
    [TypeError], and the latter only when one of the six sections is
    present without being a sub-document; the run is never stopped. *)
Theorem flatten_failure_kind (doc : document) (e : exn) :
  flatten doc = Raise e ->
  (exists k, e = KeyError k /\ k ∈ schema_keys)
  \/ (e = TypeError
      /\ exists section, section ∈ sections /\ not_a_sub_document doc section).
Proof.
  unfold flatten.
  do 12 next_lookup ltac:(
    intros [= <-];
    match goal with
    | H : nested _ _ _ = Raise _ |- _ =>
        apply nested_Raise in H as [-> | [-> | [-> Hentry]]]
    end;
    [ left; eexists; (split; [reflexivity|]);
      unfold schema_keys, sections; simpl; rewrite !elem_of_cons; tauto
    | left; eexists; (split; [reflexivity|]);
      unfold schema_keys, sections; simpl; rewrite !elem_of_cons; tauto
    | right; (split; [reflexivity|]); eexists; (split; [|exact Hentry]);
      unfold sections; rewrite !elem_of_cons; tauto ]).
  discriminate.
Qed.

Lemma flatten_failure_kind_witness :
  (exists k, TypeError = KeyError k /\ k ∈ schema_keys)
  \/ (TypeError = TypeError
      /\ exists section,
           section ∈ sections
           /\ not_a_sub_document (<["outcome" := Null]> (synthetic fixture))
                section).
Proof.
  apply (flatten_failure_kind (<["outcome" := Null]> (synthetic fixture))).
  reflexivity.
Defined.

Lemma nested_insert_section (doc : document) (k : string)
    (v : entry) (section field : string) :
  k <> section ->
  nested (<[k := v]> doc) section field = nested doc section field.
Proof.
  intros Hne. unfold nested, getitem. rewrite lookup_insert_ne by exact Hne.
  reflexivity.
Qed.

(** X3. An entry under a name other than the six sections of the schema,
    such as the store's own identifier entry, does not change what
    flattening yields, row or exception. *)
Theorem flatten_ignores_other_sections (doc : document) (k : string)
    (v : entry) :
  k ∉ sections -> flatten (<[k := v]> doc) = flatten doc.
Proof.
  intros Hk. unfold flatten.
  rewrite !nested_insert_section; [reflexivity|..];
    intros ->; apply Hk; unfold sections; rewrite !elem_of_cons; tauto.
Qed.

Lemma flatten_ignores_other_sections_witness :
  flatten (<["_id" := Scalar (VStr "66f1")]> (synthetic fixture))
  = flatten (synthetic fixture).
Proof.
  apply (flatten_ignores_other_sections (synthetic fixture) "_id").
  unfold sections. rewrite !elem_of_cons, elem_of_nil.
  intros H. repeat destruct H as [H|H]; try discriminate H. exact H.
Defined.

Lemma load_rows_Forall2 (data : list document) (rows : list row) :
  load_rows data = Ok rows
  <-> Forall2 (fun doc r => flatten doc = Ok r) data rows.
Proof.
  revert rows. induction data as [|doc data IH]; intros rows; simpl.
  - split.
    + intros [= <-]. constructor.
    + intros Hall. inversion Hall. reflexivity.
  - split.
    + destruct (flatten doc) as [r|] eqn:Hdoc; [|discriminate].
      rewrite bind_Ok_step.
      destruct (load_rows data) as [rows'|] eqn:Hrest; [|discriminate].
      rewrite bind_Ok_step. intros [= <-].
      constructor; [exact Hdoc|]. apply IH. reflexivity.
    + intros Hall. inversion Hall as [|? r ? rows' Hdoc Hrest]; subst.
      rewrite Hdoc, bind_Ok_step.
      apply IH in Hrest. rewrite Hrest. reflexivity.
Qed.

(** X4. The load returns rows exactly when every document flattens, and
    then the rows are the flattened documents in the order of the
    documents, one per document, duplicates included. *)
Theorem load_rows_Ok (data : list document) (rows : list row) :
  load_rows data = Ok rows
  <-> Forall2 (fun doc r => flatten doc = Ok r) data rows.
Proof. apply load_rows_Forall2. Qed.

(** X5. When the load fails, it fails with the exception of the first
    document that does not flatten; the documents before it all flatten,
    those after it are not looked at. *)
Theorem load_rows_Raise (data : list document) (e : exn) :
  load_rows data = Raise e ->
  exists good bad rest,
    data = (good ++ bad :: rest)%list
    /\ Forall (fun doc => returns (flatten doc)) good
    /\ flatten bad = Raise e.
Proof.
  induction data as [|doc data IH]; simpl; [discriminate|].
  destruct (flatten doc) as [r|e'] eqn:Hdoc.
  - rewrite bind_Ok_step.
    destruct (load_rows data) as [rows'|e''] eqn:Hrest; [discriminate|].
    rewrite bind_Raise_step. intros [= <-].
    destruct (IH eq_refl) as (good & bad & rest & -> & Hgood & Hbad).
    exists (doc :: good), bad, rest. split; [reflexivity|].
    split; [|exact Hbad]. constructor; [rewrite Hdoc; exact I|exact Hgood].
  - rewrite bind_Raise_step. intros [= <-].
    exists [], doc, data. repeat split; [constructor|exact Hdoc].
Qed.

Lemma load_rows_Raise_witness :
  exists good bad rest,
    [synthetic fixture; delete "clinical" (synthetic fixture);
     synthetic fixture]
    = (good ++ bad :: rest)%list
    /\ Forall (fun doc => returns (flatten doc)) good
    /\ flatten bad = Raise (KeyError "clinical").
Proof.
  apply (load_rows_Raise
           [synthetic fixture; delete "clinical" (synthetic fixture);
            synthetic fixture]).
  reflexivity.
Defined.

Lemma flatten_Ok_dom (doc : document) (r : row) :
  flatten doc = Ok r -> dom r = list_to_set row_labels.
Proof.
  intros Hr.
  assert (Hret : returns (flatten doc)) by (rewrite Hr; exact I).
  apply flatten_returns_iff_aux in Hret as [f Hf].
  rewrite (flatten_shaped doc f Hf) in Hr. injection Hr as <-.
  unfold row_of. rewrite dom_list_to_map_L. reflexivity.
Qed.

Lemma flattened_rows_dom (data : list document) (rows : list row) :
  Forall2 (fun doc r => flatten doc = Ok r) data rows ->
  Forall (fun r => dom r = list_to_set row_labels) rows.
Proof.
  induction 1 as [|doc r data rows Hdoc _ IH]; constructor; [|exact IH].
  apply (flatten_Ok_dom doc r Hdoc).
Qed.

(** X6. The whole load returns a table exactly when the endpoint in use
    answers, the read of the collection returns, and every document read
    flattens; the table then holds the flattened documents in order under
    labels that are the keys of each of its rows.  When the endpoint does
    not answer the run is stopped; when the read raises, its exception is
    the outcome; and a table without rows comes only from a collection
    read as empty. *)
Theorem load_data_outcome (secrets : gmap string (gmap string string))
    (fallback_uri : string) (ping : string -> bool)
    (find : Connection.Collection -> result (list document)) :
  let uri := Connection.MONGODB_URI secrets fallback_uri in
  let collection :=
    Connection.mkCollection uri "healthcare_db" "patient_readmissions" in
  let outcome := load_data secrets fallback_uri ping find in
  (forall table,
     outcome = Ok table
     <-> ping uri = true
         /\ exists data rows,
              find collection = Ok data
              /\ Forall2 (fun doc r => flatten doc = Ok r) data rows
              /\ table = pd_DataFrame rows)
  /\ (ping uri = false -> outcome = Raise StopException)
  /\ (forall e, ping uri = true -> find collection = Raise e ->
                outcome = Raise e)
  /\ (forall table, outcome = Ok table ->
        Forall (fun r => dom r = list_to_set (labels table)) (body table)
        /\ (body table = [] -> find collection = Ok [])).
Proof.
  intros uri collection outcome.
  assert (Hiff : forall table,
     outcome = Ok table
     <-> ping uri = true
         /\ exists data rows,
              find collection = Ok data
              /\ Forall2 (fun doc r => flatten doc = Ok r) data rows
              /\ table = pd_DataFrame rows).
  { intros table. subst outcome.
    unfold load_data, Connection.get_database_connection. fold uri.
    destruct (ping uri).
    - rewrite bind_Ok_step. fold collection.
      destruct (find collection) as [data|e].
      + rewrite bind_Ok_step.
        destruct (load_rows data) as [rows|e] eqn:Hrows.
        * rewrite bind_Ok_step. apply load_rows_Forall2 in Hrows. split.
          -- intros [= <-]. split; [reflexivity|]. exists data, rows. auto.
          -- intros [_ (data' & rows' & [= <-] & Hall & ->)].
             apply load_rows_Forall2 in Hrows, Hall. congruence.
        * rewrite bind_Raise_step. split; [discriminate|].
          intros [_ (data' & rows' & [= <-] & Hall & _)].
          apply load_rows_Forall2 in Hall. congruence.
      + rewrite bind_Raise_step. split; [discriminate|].
        intros [_ (data' & rows' & Hfind & _)]. discriminate.
    - rewrite bind_Raise_step.
      split; [discriminate|intros [? _]; discriminate]. }
  split; [exact Hiff|]. split; [|split].
  - intros Hping. subst outcome.
    unfold load_data, Connection.get_database_connection.
    fold uri. rewrite Hping. reflexivity.
  - intros e Hping Hfind. subst outcome.
    unfold load_data, Connection.get_database_connection.
    fold uri. rewrite Hping, bind_Ok_step. fold collection.
    rewrite Hfind. reflexivity.
  - intros table Htable.
    apply Hiff in Htable as [_ (data & rows & Hfind & Hall & ->)]. split.
    + destruct rows as [|r rows]; [constructor|].
      apply (flattened_rows_dom data). exact Hall.
    + simpl. intros ->. inversion Hall. subst. exact Hfind.
Qed.

End LoaderProps.

(* ===================================================================== *)
(** ** The aggregations                                                   *)
(* ===================================================================== *)

Module AggregatorProps.
Import Aggregator.

(** *** Key orders *)

#[global] Instance Z_KeyOrdLaws : KeyOrdLaws Z.
Proof.
  split; unfold cmp, Z_KeyOrd.
  - intros a b. rewrite Z.compare_gt_iff, Z.compare_lt_iff. trivial.
  - intros a b c. rewrite !Z.compare_lt_iff. lia.
Qed.

Lemma ascii_compare_lt_trans (a b c : Ascii.ascii) :
  Ascii.compare a b = Lt -> Ascii.compare b c = Lt -> Ascii.compare a c = Lt.
Proof.
  unfold Ascii.compare. rewrite !N.compare_lt_iff. apply N.lt_trans.
Qed.

Lemma string_compare_lt_trans (a b c : string) :
  String.compare a b = Lt -> String.compare b c = Lt -> String.compare a c = Lt.
Proof.
  revert b c. induction a as [|x a IH]; intros [|y b] [|z c]; simpl;
    try discriminate; try reflexivity.
  destruct (Ascii.compare x y) eqn:Exy; try discriminate.
  - apply Ascii.compare_eq_iff in Exy. subst y.
    destruct (Ascii.compare x z); try discriminate; [apply IH|reflexivity].
  - intros _. destruct (Ascii.compare y z) eqn:Eyz; try discriminate.
    + apply Ascii.compare_eq_iff in Eyz. subst z. rewrite Exy. reflexivity.
    + intros _. rewrite (ascii_compare_lt_trans x y z Exy Eyz). reflexivity.
Qed.

#[global] Instance string_KeyOrdLaws : KeyOrdLaws string.
Proof.
  split; unfold cmp, string_KeyOrd.
  - intros a b Hgt. rewrite String.compare_antisym, Hgt. reflexivity.
  - apply string_compare_lt_trans.
Qed.

(** *** Sums of zero-one series *)

Lemma sum_app (s1 s2 : list Z) : sum (s1 ++ s2) = sum s1 + sum s2.
Proof.
  unfold sum. induction s1 as [|x s1 IH]; simpl; [reflexivity|].
  rewrite IH. lia.
Qed.

Lemma sum_zero_one (s : list Z) :
  Forall zero_one s -> 0 <= sum s <= Z.of_nat (length s).
Proof.
  unfold sum. induction 1 as [|x s Hx _ IH]; simpl; [lia|].
  destruct Hx; subst x; lia.
Qed.

Lemma mean_bounds (s : list Z) :
  s <> [] -> Forall zero_one s -> (0 <= mean s /\ mean s <= 1)%Q.
Proof.
  intros Hne Hs. pose proof (sum_zero_one s Hs) as [Hlo Hhi].
  assert (Hlen : (0 < inject_Z (Z.of_nat (length s)))%Q).
  { rewrite <- (Zlt_Qlt 0). destruct s; [congruence|simpl; lia]. }
  unfold mean. split.
  - apply Qle_shift_div_l; [exact Hlen|].
    rewrite Qmult_0_l. rewrite <- (Zle_Qle 0). exact Hlo.
  - apply Qle_shift_div_r; [exact Hlen|].
    rewrite Qmult_1_l. rewrite <- Zle_Qle. exact Hhi.
Qed.

(** *** Grouping *)

Section group_facts.
Context {K : Type} `{KeyOrd K}.
Implicit Types (groups : list (K * list PatientRecord)) (r : PatientRecord).

Lemma Total_agg (g : K * list PatientRecord) :
  Total (agg_sum_count_mean g) = Z.of_nat (length g.2).
Proof. unfold agg_sum_count_mean. simpl. rewrite length_fmap. reflexivity. Qed.

Lemma sum_totals_cons (a : AggregateRow K) (t : list (AggregateRow K)) :
  sum_totals (a :: t) = Total a + sum_totals t.
Proof. reflexivity. Qed.

Lemma group_insert_totals k r groups :
  sum_totals (agg_sum_count_mean <$> group_insert k r groups)
  = 1 + sum_totals (agg_sum_count_mean <$> groups).
Proof.
  induction groups as [|[k' members] groups IH]; [reflexivity|].
  cbn [group_insert]. destruct (cmp k k'); rewrite !fmap_cons, !sum_totals_cons.
  - rewrite !Total_agg. cbn [snd]. rewrite length_app. simpl. lia.
  - rewrite !Total_agg. cbn [snd]. simpl. lia.
  - rewrite IH. lia.
Qed.

Lemma fold_group_insert_totals (key : PatientRecord -> K) rows groups :
  sum_totals
    (agg_sum_count_mean
       <$> fold_left (fun gs r => group_insert (key r) r gs) rows groups)
  = Z.of_nat (length rows) + sum_totals (agg_sum_count_mean <$> groups).
Proof.
  revert groups. induction rows as [|r rows IH]; intros groups.
  - simpl. lia.
  - cbn [fold_left length]. rewrite IH, group_insert_totals. lia.
Qed.

Lemma groupby_totals (key : PatientRecord -> K) rows :
  sum_totals (agg_sum_count_mean <$> groupby key rows)
  = Z.of_nat (length rows).
Proof.
  unfold groupby. rewrite fold_group_insert_totals. unfold sum_totals. simpl. lia.
Qed.

Lemma percent_totals (t : list (AggregateRow K)) :
  sum_totals (percent t) = sum_totals t.
Proof.
  unfold sum_totals, percent. rewrite <- list_fmap_compose. reflexivity.
Qed.

Lemma group_insert_populated (P : PatientRecord -> Prop) k r groups :
  P r -> Forall (populated P) groups ->
  Forall (populated P) (group_insert k r groups).
Proof.
  intros Hr. induction 1 as [|[k' members] groups [Hne Hall] Hrest IH]; simpl.
  - repeat constructor; [discriminate|exact Hr].
  - destruct (cmp k k').
    + constructor; [|exact Hrest]. split; simpl.
      * destruct members; discriminate.
      * apply Forall_app. split; [exact Hall|]. repeat constructor. exact Hr.
    + constructor.
      * split; simpl; [discriminate|]. repeat constructor. exact Hr.
      * constructor; [split; assumption|exact Hrest].
    + constructor; [split; assumption|exact IH].
Qed.

Lemma fold_group_insert_populated (P : PatientRecord -> Prop)
    (key : PatientRecord -> K) rows groups :
  Forall P rows -> Forall (populated P) groups ->
  Forall (populated P)
    (fold_left (fun gs r => group_insert (key r) r gs) rows groups).
Proof.
  intros Hrows. revert groups.
  induction Hrows as [|r rows Hr _ IH]; intros groups Hgroups; simpl.
  - exact Hgroups.
  - apply IH. apply group_insert_populated; assumption.
Qed.

Lemma groupby_populated (P : PatientRecord -> Prop)
    (key : PatientRecord -> K) rows :
  Forall P rows -> Forall (populated P) (groupby key rows).
Proof.
  intros Hrows. apply fold_group_insert_populated; [exact Hrows|constructor].
Qed.

End group_facts.

(** *** Ascending keys *)

Section ascending_keys.
Context {K : Type} `{KeyOrdLaws K}.
Implicit Types (groups : list (K * list PatientRecord)).

Lemma group_insert_keys (P : K -> Prop) k r groups :
  P k -> Forall (fun g => P g.1) groups ->
  Forall (fun g => P g.1) (group_insert k r groups).
Proof.
  intros Hk. induction 1 as [|[k' members] groups Hg Hrest IH]; simpl.
  - repeat constructor. exact Hk.
  - destruct (cmp k k'); repeat constructor; assumption.
Qed.

Lemma group_insert_ascending k r groups :
  StronglySorted group_lt groups ->
  StronglySorted group_lt (group_insert k r groups).
Proof.
  induction 1 as [|[k' members] groups Hsorted IH Hall]; simpl.
  - repeat constructor.
  - destruct (cmp k k') eqn:Hcmp.
    + constructor; assumption.
    + constructor; [constructor; assumption|].
      constructor; [exact Hcmp|].
      eapply Forall_impl; [exact Hall|].
      intros g Hg. unfold group_lt, key_lt in *. simpl in *.
      eapply cmp_lt_trans; eassumption.
    + constructor; [exact IH|].
      apply (group_insert_keys (fun k0 => key_lt k' k0)).
      * apply cmp_gt_lt. exact Hcmp.
      * exact Hall.
Qed.

Lemma groupby_ascending (key : PatientRecord -> K) rows :
  StronglySorted group_lt (groupby key rows).
Proof.
  unfold groupby.
  assert (Hnil : StronglySorted group_lt []) by constructor.
  revert Hnil. generalize (@nil (K * list PatientRecord)).
  induction rows as [|r rows IH]; intros groups Hgroups; simpl.
  - exact Hgroups.
  - apply IH. apply group_insert_ascending. exact Hgroups.
Qed.

End ascending_keys.

(** *** Sorting by rate *)

Section sorting.
Context {K : Type} `{KeyOrd K}.
Implicit Types (a b : AggregateRow K) (t : list (AggregateRow K)).

Lemma insert_by_rate_perm a t : insert_by_rate a t ≡ₚ a :: t.
Proof.
  induction t as [|b t IH]; simpl; [reflexivity|].
  destruct (Qle_bool (Rate a) (Rate b)); [reflexivity|].
  rewrite IH. apply Permutation_swap.
Qed.

Lemma sort_ascending_perm t : sort_ascending t ≡ₚ t.
Proof.
  induction t as [|a t IH]; simpl; [reflexivity|].
  rewrite insert_by_rate_perm, IH. reflexivity.
Qed.

Lemma sort_values_perm t : sort_values_Rate_descending t ≡ₚ t.
Proof.
  unfold sort_values_Rate_descending.
  rewrite <- Permutation_rev, sort_ascending_perm, <- Permutation_rev.
  reflexivity.
Qed.

Lemma rate_asc_then_le S a b : rate_asc_then S a b -> (Rate a <= Rate b)%Q.
Proof.
  intros [Hlt|[Heq _]]; [apply Qlt_le_weak; exact Hlt|].
  rewrite Heq. apply Qle_refl.
Qed.

Lemma insert_by_rate_sorted S a t :
  Forall (S a) t ->
  StronglySorted (rate_asc_then S) t ->
  StronglySorted (rate_asc_then S) (insert_by_rate a t).
Proof.
  intros Ha Hsorted. induction Hsorted as [|b t Hsorted IH Hb]; simpl.
  - repeat constructor.
  - apply Forall_cons in Ha as [Hab Ha].
    destruct (Qle_bool (Rate a) (Rate b)) eqn:Hle.
    + apply Qle_bool_iff in Hle.
      assert (Hstep : forall c, S a c -> (Rate b <= Rate c)%Q ->
                rate_asc_then S a c).
      { intros c Hac Hbc.
        destruct (Qle_lteq (Rate a) (Rate c)) as [Hcases _].
        destruct Hcases as [Hlt|Heq];
          [eapply Qle_trans; eassumption|left; exact Hlt|right; split; assumption]. }
      constructor; [constructor; assumption|].
      constructor; [apply Hstep; [exact Hab|apply Qle_refl]|].
      rewrite Forall_forall in Ha, Hb. apply Forall_forall. intros c Hc.
      apply Hstep; [apply Ha; exact Hc|].
      eapply rate_asc_then_le. apply Hb. exact Hc.
    + assert (Hlt : (Rate b < Rate a)%Q).
      { apply Qnot_le_lt. intros Hle'. apply Qle_bool_iff in Hle'. congruence. }
      constructor; [apply IH; exact Ha|].
      rewrite insert_by_rate_perm. constructor; [left; exact Hlt|exact Hb].
Qed.

Lemma sort_ascending_sorted S t :
  StronglySorted S t -> StronglySorted (rate_asc_then S) (sort_ascending t).
Proof.
  induction 1 as [|a t Hsorted IH Ha]; simpl; [constructor|].
  apply insert_by_rate_sorted; [|exact IH].
  rewrite sort_ascending_perm. exact Ha.
Qed.

Lemma StronglySorted_rev {A : Type} (R : relation A) (l : list A) :
  StronglySorted R l -> StronglySorted (flip R) (rev l).
Proof.
  induction 1 as [|x l Hsorted IH Hx]; simpl; [constructor|].
  apply StronglySorted_app. split; [|split; [exact IH|repeat constructor]].
  intros y1 y2 Hy1 Hy2. apply list_elem_of_singleton in Hy2. subst y2.
  rewrite Forall_forall in Hx. apply Hx.
  rewrite <- (Permutation_rev l) in Hy1. exact Hy1.
Qed.

Lemma StronglySorted_impl {A : Type} (R1 R2 : relation A) (l : list A) :
  (forall x y, R1 x y -> R2 x y) -> StronglySorted R1 l -> StronglySorted R2 l.
Proof.
  intros Himpl. induction 1 as [|x l _ IH Hx]; constructor; [exact IH|].
  eapply Forall_impl; [exact Hx|]. intros y. apply Himpl.
Qed.

(** A stable descending sort: what was in [S]-order stays so among equal
    rates. *)
Lemma sort_values_sorted S t :
  StronglySorted S t ->
  StronglySorted (rate_desc_then S) (sort_values_Rate_descending t).
Proof.
  intros Hsorted. unfold sort_values_Rate_descending.
  apply StronglySorted_rev in Hsorted.
  apply (sort_ascending_sorted (flip S)) in Hsorted.
  apply StronglySorted_rev in Hsorted.
  eapply StronglySorted_impl; [|exact Hsorted].
  intros a b [Hlt|[Heq HS]]; [left; exact Hlt|right].
  split; [symmetry; exact Heq|exact HS].
Qed.

End sorting.

(** *** Column selection *)


Lemma getitem_rows {A : Type} (rows : list PatientRecord) (name : string)
    (field : PatientRecord -> A) :
  rows <> [] -> name ∈ column_names ->
  getitem (pd_DataFrame rows) name field = Ok (field <$> rows).
Proof.
  intros Hne Hname. unfold getitem.
  destruct rows as [|r rows]; [congruence|].
  case_bool_decide as Hin; [reflexivity|].
  exfalso. apply Hin. exact Hname.
Qed.

Lemma getitem_Ok {A : Type} (df : DataFrame) (name : string)
    (field : PatientRecord -> A) (s : list A) :
  getitem df name field = Ok s -> s = field <$> records df.
Proof.
  unfold getitem. destruct (bool_decide _); congruence.
Qed.

Ltac known_column :=
  unfold column_names; rewrite !elem_of_cons; tauto.

Section rate_tables.
Context {K : Type} `{KeyOrd K}.


Lemma readmission_rate_by_rows (rows : list PatientRecord) (by_name : string)
    (key : PatientRecord -> K) :
  rows <> [] -> by_name ∈ column_names ->
  readmission_rate_by (pd_DataFrame rows) by_name key
  = Ok (agg_sum_count_mean <$> groupby key rows).
Proof.
  intros Hne Hname. unfold readmission_rate_by.
  rewrite (getitem_rows rows by_name key Hne Hname).
  rewrite (getitem_rows rows "readmitted_30days" readmitted_30days Hne)
    by known_column.
  reflexivity.
Qed.

Lemma readmission_rate_by_Ok (df : DataFrame) (by_name : string)
    (key : PatientRecord -> K) (t : list (AggregateRow K)) :
  readmission_rate_by df by_name key = Ok t ->
  t = agg_sum_count_mean <$> groupby key (records df).
Proof.
  unfold readmission_rate_by.
  destruct (getitem df by_name key); [|discriminate].
  destruct (getitem df "readmitted_30days" readmitted_30days); [|discriminate].
  simpl. congruence.
Qed.

End rate_tables.

(** *** What a row of a rate table satisfies *)

Lemma agg_fraction_row {K : Type} (g : K * list PatientRecord) :
  populated binary_outcome g -> fraction_row (agg_sum_count_mean g).
Proof.
  intros [Hne Hall]. unfold fraction_row, agg_sum_count_mean. simpl.
  assert (Hs : Forall zero_one (readmitted_30days <$> g.2)).
  { apply Forall_fmap. exact Hall. }
  assert (Hne' : readmitted_30days <$> g.2 <> []).
  { destruct (g.2); [congruence|discriminate]. }
  split; [|split; [reflexivity|apply mean_bounds; assumption]].
  rewrite length_fmap. destruct (g.2); [congruence|simpl; lia].
Qed.

Lemma percent_of_fraction_row {K : Type} (a : AggregateRow K) :
  fraction_row a ->
  percent_row (mkAggregateRow (Key a) (Readmissions a) (Total a) (Rate a * 100)%Q).
Proof.
  intros (Htotal & Hrate & Hlo & Hhi). unfold percent_row. simpl.
  split; [exact Htotal|]. split; [rewrite Hrate; reflexivity|]. split.
  - apply Qmult_le_0_compat; [exact Hlo|discriminate].
  - change (Rate a * 100 <= 1 * 100)%Q.
    apply Qmult_le_compat_r; [exact Hhi|discriminate].
Qed.

Lemma rate_table_rows {K : Type} `{KeyOrd K} (df : DataFrame)
    (by_name : string) (key : PatientRecord -> K) (t : list (AggregateRow K)) :
  Forall binary_outcome (records df) ->
  readmission_rate_by df by_name key = Ok t ->
  Forall fraction_row t /\ Forall percent_row (percent t).
Proof.
  intros Hrows Ht. apply readmission_rate_by_Ok in Ht. subst t.
  assert (Hfrac : Forall fraction_row
                    (agg_sum_count_mean <$> groupby key (records df))).
  { apply Forall_fmap.
    eapply Forall_impl; [apply groupby_populated; exact Hrows|].
    intros g. apply agg_fraction_row. }
  split; [exact Hfrac|].
  unfold percent. apply Forall_fmap.
  eapply Forall_impl; [exact Hfrac|]. intros a. apply percent_of_fraction_row.
Qed.

(** *** Rates of a group (C5) *)

(** The scenario of the specification: two groups, "Other" with rate 0 of
    total 2 and "Circulatory" with rate 1 of total 1. *)
Example scenario_rates :
  readmission_rate_by (pd_DataFrame three_records) "primary_diagnosis"
    primary_diagnosis
  = Ok [mkAggregateRow "Circulatory" 1 1 1%Q;
        mkAggregateRow "Other" 0 2 (0 # 2)%Q].
Proof. reflexivity. Qed.


(** C5, refuted as stated: the table of one readmitted patient carries the
    rate 100, which is neither at most 1 nor readmissions/total = 1. *)
Lemma race_rate_is_a_percentage :
  race_readmit (pd_DataFrame one_readmitted)
  = Ok [mkAggregateRow "Caucasian" 1 1 100%Q]
  /\ ~ (100 <= 1)%Q
  /\ ~ (100 == inject_Z 1 / inject_Z 1)%Q.
Proof.
  split; [reflexivity|]. split; intros Habs; vm_compute in Habs;
    [apply Habs; reflexivity|discriminate].
Qed.

(** C5, amended. For records whose outcome is 0 or 1 and any grouping
    column: every group that [agg] produces has a total of at least 1 and a
    mean equal to readmissions/total, between 0 and 1; the [Rate] column
    the tables then carry is that quotient times 100, between 0 and 100;
    so no group with total 0 appears. *)
Theorem rate_table_groups {K : Type} `{KeyOrd K} (rows : list PatientRecord)
    (by_name : string) (key : PatientRecord -> K) :
  Forall binary_outcome rows ->
  (rows <> [] -> by_name ∈ column_names ->
   returns (readmission_rate_by (pd_DataFrame rows) by_name key))
  /\ (forall t, readmission_rate_by (pd_DataFrame rows) by_name key = Ok t ->
        Forall fraction_row t /\ Forall percent_row (percent t))
  /\ (forall t, race_readmit (pd_DataFrame rows) = Ok t -> Forall percent_row t)
  /\ (forall t, diag_readmit (pd_DataFrame rows) = Ok t -> Forall percent_row t).
Proof.
  intros Hrows.
  assert (Hdf : Forall binary_outcome (records (pd_DataFrame rows)))
    by exact Hrows.
  split; [|split; [|split]].
  - intros Hne Hname. rewrite readmission_rate_by_rows by assumption. exact I.
  - intros t Ht. exact (rate_table_rows _ _ _ _ Hdf Ht).
  - intros t Ht. unfold race_readmit in Ht.
    destruct (readmission_rate_by _ "race" race) as [t0|] eqn:Ht0;
      [|discriminate].
    simpl in Ht. injection Ht as <-. rewrite sort_values_perm.
    exact (proj2 (rate_table_rows _ _ _ _ Hdf Ht0)).
  - intros t Ht. unfold diag_readmit in Ht.
    destruct (readmission_rate_by _ "primary_diagnosis" primary_diagnosis)
      as [t0|] eqn:Ht0; [|discriminate].
    simpl in Ht. injection Ht as <-. rewrite sort_values_perm.
    apply Forall_forall. intros a Ha.
    apply list_elem_of_filter in Ha as [_ Ha].
    pose proof (rate_table_rows _ _ _ _ Hdf Ht0) as [_ Hpct].
    rewrite Forall_forall in Hpct. apply Hpct. exact Ha.
Qed.

Lemma three_records_binary : Forall binary_outcome three_records.
Proof.
  repeat first [apply Forall_nil_2 | apply Forall_cons_2; [vm_compute; auto|]].
Qed.

Lemma rate_table_groups_witness :
  (three_records <> [] -> "primary_diagnosis" ∈ column_names ->
   returns (readmission_rate_by (pd_DataFrame three_records)
              "primary_diagnosis" primary_diagnosis))
  /\ (forall t,
        readmission_rate_by (pd_DataFrame three_records)
          "primary_diagnosis" primary_diagnosis = Ok t ->
        Forall fraction_row t /\ Forall percent_row (percent t))
  /\ (forall t, race_readmit (pd_DataFrame three_records) = Ok t ->
        Forall percent_row t)
  /\ (forall t, diag_readmit (pd_DataFrame three_records) = Ok t ->
        Forall percent_row t).
Proof.
  apply (rate_table_groups three_records "primary_diagnosis" primary_diagnosis).
  exact three_records_binary.
Defined.

(** *** Totals of the groups (C6) *)

(** C6. For a non-empty record sequence and any column to group by, the
    totals of the groups add up to the number of records; so do those of
    the table by prior inpatient visits. *)
Theorem group_totals_cover_records {K : Type} `{KeyOrd K}
    (rows : list PatientRecord) (by_name : string) (key : PatientRecord -> K) :
  rows <> [] -> by_name ∈ column_names ->
  (exists t, readmission_rate_by (pd_DataFrame rows) by_name key = Ok t
             /\ sum_totals t = len (pd_DataFrame rows))
  /\ (exists t, inpatient_readmit (pd_DataFrame rows) = Ok t
                /\ sum_totals t = len (pd_DataFrame rows)).
Proof.
  intros Hne Hname. split.
  - eexists. split; [apply readmission_rate_by_rows; assumption|].
    apply groupby_totals.
  - unfold inpatient_readmit.
    rewrite readmission_rate_by_rows by (assumption || known_column).
    eexists. split; [reflexivity|].
    rewrite percent_totals. apply groupby_totals.
Qed.

Lemma group_totals_cover_records_witness :
  (exists t, readmission_rate_by (pd_DataFrame three_records)
               "primary_diagnosis" primary_diagnosis = Ok t
             /\ sum_totals t = len (pd_DataFrame three_records))
  /\ (exists t, inpatient_readmit (pd_DataFrame three_records) = Ok t
                /\ sum_totals t = len (pd_DataFrame three_records)).
Proof.
  apply (group_totals_cover_records three_records "primary_diagnosis"
           primary_diagnosis).
  - discriminate.
  - known_column.
Defined.

(** *** Ranking of the diagnoses (C2) *)

Lemma StronglySorted_any {A : Type} (l : list A) :
  StronglySorted (fun _ _ => True) l.
Proof.
  induction l as [|x l IH]; constructor; [exact IH|].
  apply Forall_forall. intros; exact I.
Qed.

Lemma rate_desc_then_ge {K : Type} (S : relation (AggregateRow K))
    (a b : AggregateRow K) :
  rate_desc_then S a b -> (Rate b <= Rate a)%Q.
Proof.
  intros [Hlt|[Heq _]]; [apply Qlt_le_weak; exact Hlt|].
  rewrite Heq. apply Qle_refl.
Qed.

Lemma sort_values_descending {K : Type} (t : list (AggregateRow K)) :
  StronglySorted (fun a b => (Rate b <= Rate a)%Q)
    (sort_values_Rate_descending t).
Proof.
  eapply StronglySorted_impl;
    [|apply (sort_values_sorted (fun _ _ => True)), StronglySorted_any].
  intros a b. apply rate_desc_then_ge.
Qed.


Lemma StronglySorted_filter {A : Type} (R : relation A) (P : A -> Prop)
    `{forall x, Decision (P x)} (l : list A) :
  StronglySorted R l -> StronglySorted R (filter P l).
Proof.
  induction 1 as [|x l _ IH Hx]; [constructor|].
  rewrite filter_cons. destruct (decide (P x)); [|exact IH].
  constructor; [exact IH|].
  apply Forall_forall. intros y Hy. apply list_elem_of_filter in Hy as [_ Hy].
  rewrite Forall_forall in Hx. apply Hx. exact Hy.
Qed.

Lemma rate_table_key_order {K : Type} `{KeyOrdLaws K}
    (key : PatientRecord -> K) (rows : list PatientRecord) :
  StronglySorted key_order (percent (agg_sum_count_mean <$> groupby key rows)).
Proof.
  unfold percent.
  apply (StronglySorted_fmap _ key_order key_order); [intros a b Hab; exact Hab|].
  apply (StronglySorted_fmap _ group_lt key_order); [intros g h Hgh; exact Hgh|].
  apply groupby_ascending.
Qed.


(** *** The empty table (C3) *)




(** *** Threshold counts (C8) *)

Lemma count_ge_antitone (s : list Z) (t1 t2 : Z) :
  t1 <= t2 -> count_ge s t2 <= count_ge s t1.
Proof.
  intros Hle. unfold count_ge. apply inj_le.
  induction s as [|x s IH]; [reflexivity|].
  rewrite !filter_cons.
  destruct (decide (t2 <= x)), (decide (t1 <= x)); simpl; lia.
Qed.

(** C8. For every table, every integer column and thresholds [t1 <= t2],
    the count of records at or above [t2] is at most the count at or above
    [t1]; the two counts of a table either both raise, with the same
    exception, or both return. *)
Theorem threshold_count_antitone (df : DataFrame) (name : string)
    (field : PatientRecord -> Z) (t1 t2 : Z) :
  t1 <= t2 ->
  count_ge (field <$> records df) t2 <= count_ge (field <$> records df) t1
  /\ match threshold_count df name field t2, threshold_count df name field t1 with
     | Ok c2, Ok c1 => c2 <= c1
     | Raise e2, Raise e1 => e2 = e1
     | _, _ => False
     end.
Proof.
  intros Hle. split; [apply count_ge_antitone; exact Hle|].
  unfold threshold_count, getitem.
  destruct (bool_decide (name ∈ columns df)); simpl;
    [apply count_ge_antitone; exact Hle|reflexivity].
Qed.

Lemma threshold_count_antitone_witness :
  count_ge (num_medications <$> records (pd_DataFrame three_records)) 20
  <= count_ge (num_medications <$> records (pd_DataFrame three_records)) 15
  /\ match
       threshold_count (pd_DataFrame three_records) "num_medications"
         num_medications 20,
       threshold_count (pd_DataFrame three_records) "num_medications"
         num_medications 15
     with
     | Ok c2, Ok c1 => c2 <= c1
     | Raise e2, Raise e1 => e2 = e1
     | _, _ => False
     end.
Proof.
  apply (threshold_count_antitone (pd_DataFrame three_records)
           "num_medications" num_medications 15 20).
  lia.
Defined.

(** *** Grouping loses and invents no record *)

Section partition.
Context {K : Type} `{KeyOrd K}.
Implicit Types (groups : list (K * list PatientRecord)).

Lemma group_insert_members k r groups :
  members (group_insert k r groups) ≡ₚ r :: members groups.
Proof.
  unfold members.
  induction groups as [|[k' ms] groups IH]; [reflexivity|].
  cbn [group_insert]. destruct (cmp k k'); rewrite !fmap_cons; cbn [concat snd].
  - rewrite <- app_assoc. simpl. symmetry. apply Permutation_middle.
  - reflexivity.
  - rewrite IH. symmetry. apply Permutation_middle.
Qed.

Lemma fold_group_insert_members (key : PatientRecord -> K) rows groups :
  members (fold_left (fun gs r => group_insert (key r) r gs) rows groups)
  ≡ₚ (rows ++ members groups)%list.
Proof.
  revert groups. induction rows as [|r rows IH]; intros groups; [reflexivity|].
  cbn [fold_left]. rewrite IH, group_insert_members.
  rewrite <- Permutation_middle. reflexivity.
Qed.

(** X7. Whatever the comparison of keys, the members of the groups taken
    together are the records of the table, each as often as it occurs:
    grouping drops no record and repeats none. *)
Theorem groupby_members (key : PatientRecord -> K) (rows : list PatientRecord) :
  members (groupby key rows) ≡ₚ rows.
Proof.
  unfold groupby. rewrite fold_group_insert_members.
  unfold members. simpl. rewrite app_nil_r. reflexivity.
Qed.

Lemma sum_readmissions_cons (a : AggregateRow K) (t : list (AggregateRow K)) :
  sum_readmissions (a :: t) = Readmissions a + sum_readmissions t.
Proof. reflexivity. Qed.

Lemma Readmissions_agg (g : K * list PatientRecord) :
  Readmissions (agg_sum_count_mean g) = sum (readmitted_30days <$> g.2).
Proof. reflexivity. Qed.

Lemma group_insert_readmissions k r groups :
  sum_readmissions (agg_sum_count_mean <$> group_insert k r groups)
  = readmitted_30days r + sum_readmissions (agg_sum_count_mean <$> groups).
Proof.
  induction groups as [|[k' ms] groups IH];
    [unfold sum_readmissions, sum; simpl; lia|].
  cbn [group_insert].
  destruct (cmp k k'); rewrite !fmap_cons, !sum_readmissions_cons.
  - rewrite !Readmissions_agg. cbn [snd]. rewrite fmap_app, sum_app.
    unfold sum. simpl. lia.
  - rewrite !Readmissions_agg. cbn [snd]. unfold sum. simpl. lia.
  - rewrite IH. lia.
Qed.

Lemma fold_group_insert_readmissions (key : PatientRecord -> K) rows groups :
  sum_readmissions
    (agg_sum_count_mean
       <$> fold_left (fun gs r => group_insert (key r) r gs) rows groups)
  = sum (readmitted_30days <$> rows)
    + sum_readmissions (agg_sum_count_mean <$> groups).
Proof.
  revert groups. induction rows as [|r rows IH]; intros groups.
  - change (sum (readmitted_30days <$> [])) with 0. cbn [fold_left]. lia.
  - cbn [fold_left]. rewrite IH, group_insert_readmissions.
    rewrite fmap_cons.
    change (sum (readmitted_30days r :: (readmitted_30days <$> rows)))
      with (readmitted_30days r + sum (readmitted_30days <$> rows)).
    lia.
Qed.

(** X8. In every rate table the readmissions of the groups add up to the
    readmission count of the whole table (line 142), and scaling the rates
    to percentages leaves them as they are. *)
Theorem readmissions_add_up (df : DataFrame) (by_name : string)
    (key : PatientRecord -> K) (t : list (AggregateRow K)) :
  readmission_rate_by df by_name key = Ok t ->
  readmit_count df = Ok (sum_readmissions t)
  /\ sum_readmissions (percent t) = sum_readmissions t.
Proof.
  intros Ht. split.
  - unfold readmit_count. unfold readmission_rate_by in Ht.
    destruct (getitem df by_name key); [|discriminate].
    destruct (getitem df "readmitted_30days" readmitted_30days) as [s|] eqn:Hs;
      [|discriminate].
    injection Ht as <-. apply getitem_Ok in Hs. subst s. simpl.
    unfold groupby. rewrite fold_group_insert_readmissions.
    unfold sum_readmissions, sum. simpl. f_equal. lia.
  - unfold sum_readmissions, percent. rewrite <- list_fmap_compose. reflexivity.
Qed.

End partition.

Lemma readmissions_add_up_witness :
  readmit_count (pd_DataFrame three_records)
  = Ok (sum_readmissions
          [mkAggregateRow "Circulatory" 1 1 1%Q;
           mkAggregateRow "Other" 0 2 (0 # 2)%Q])
  /\ sum_readmissions
       (percent [mkAggregateRow "Circulatory" 1 1 1%Q;
                 mkAggregateRow "Other" 0 2 (0 # 2)%Q])
     = sum_readmissions
         [mkAggregateRow "Circulatory" 1 1 1%Q;
          mkAggregateRow "Other" 0 2 (0 # 2)%Q].
Proof.
  apply (readmissions_add_up (pd_DataFrame three_records) "primary_diagnosis"
           primary_diagnosis).
  reflexivity.
Defined.

(** *** What a group holds *)

#[global] Instance Z_KeyOrdEq : KeyOrdEq Z.
Proof. intros a b. apply Z.compare_eq_iff. Qed.

Lemma string_compare_refl (a : string) : String.compare a a = Eq.
Proof.
  pose proof (String.compare_antisym a a) as Hanti.
  destruct (String.compare a a); [reflexivity|discriminate..].
Qed.

#[global] Instance string_KeyOrdEq : KeyOrdEq string.
Proof.
  intros a b. unfold cmp, string_KeyOrd. split.
  - apply String.compare_eq_iff.
  - intros ->. apply string_compare_refl.
Qed.

Lemma filter_none {A : Type} (P : A -> Prop) `{forall x, Decision (P x)}
    (l : list A) :
  (forall x, x ∈ l -> ~ P x) -> filter P l = [].
Proof.
  induction l as [|x l IH]; intros Hnone; [reflexivity|].
  rewrite filter_cons_False by (apply Hnone; left).
  apply IH. intros y Hy. apply Hnone. right. exact Hy.
Qed.

Section exact_groups.
Context {K : Type} `{KeyOrdLaws K} `{!KeyOrdEq K} `{EqDecision K}.
Variable key : PatientRecord -> K.
Implicit Types (groups : list (K * list PatientRecord)).
Implicit Types (done : list PatientRecord) (r : PatientRecord).

Lemma cmp_refl (a : K) : cmp a a = Eq.
Proof. apply cmp_eq_iff. reflexivity. Qed.

Lemma key_lt_ne (a b : K) : key_lt a b -> a <> b.
Proof.
  unfold key_lt. intros Hlt ->. rewrite cmp_refl in Hlt. discriminate.
Qed.

(** The group of key [g.1] holds the records of [done] with that key, in
    their order, and there is at least one. *)
Definition group_of done (g : K * list PatientRecord) : Prop :=
  g.2 <> [] /\ g.2 = filter (fun x => key x = g.1) done.

Lemma group_of_snoc_other done r g :
  key r <> g.1 -> group_of done g -> group_of (done ++ [r]) g.
Proof.
  intros Hne [Hnonempty Hg]. split; [exact Hnonempty|].
  rewrite filter_app, (filter_cons_False _ r) by exact Hne.
  rewrite filter_nil, app_nil_r. exact Hg.
Qed.

Lemma group_of_snoc_same done r ms :
  group_of done (key r, ms) ->
  group_of (done ++ [r]) (key r, (ms ++ [r])%list).
Proof.
  intros [_ Hg]. simpl in Hg. split; simpl.
  - destruct ms; discriminate.
  - rewrite filter_app, (filter_cons_True _ r) by reflexivity.
    rewrite filter_nil, <- Hg. reflexivity.
Qed.

Lemma group_of_new done r :
  (forall r', r' ∈ done -> key r' <> key r) ->
  group_of (done ++ [r]) (key r, [r]).
Proof.
  intros Hnew. split; simpl; [discriminate|].
  rewrite filter_app, (filter_cons_True _ r) by reflexivity.
  rewrite filter_nil, (filter_none _ done); [reflexivity|].
  intros x Hx. apply Hnew. exact Hx.
Qed.

Lemma group_insert_exact done r groups :
  StronglySorted group_lt groups ->
  Forall (group_of done) groups ->
  (forall r', r' ∈ done -> key r' = key r ->
     exists g, g ∈ groups /\ g.1 = key r) ->
  Forall (group_of (done ++ [r])) (group_insert (key r) r groups).
Proof.
  intros Hsorted.
  induction Hsorted as [|[k' ms] groups Hsorted IH Hhd]; intros Hall Hcov.
  - simpl. constructor; [|constructor]. apply group_of_new.
    intros r' Hr' Hkey. destruct (Hcov r' Hr' Hkey) as (g & Hg & _).
    apply elem_of_nil in Hg. exact Hg.
  - apply Forall_cons in Hall as [Hg Hall]. cbn [group_insert].
    assert (Hlater : forall g, g ∈ groups -> key_lt k' g.1).
    { intros g Hg'. rewrite Forall_forall in Hhd. apply (Hhd g Hg'). }
    destruct (cmp (key r) k') eqn:Hcmp.
    + apply cmp_eq_iff in Hcmp. subst k'. constructor.
      * apply group_of_snoc_same. exact Hg.
      * apply Forall_forall. intros g Hg'.
        apply group_of_snoc_other; [|rewrite Forall_forall in Hall; auto].
        apply key_lt_ne. apply Hlater. exact Hg'.
    + assert (Hbelow : forall g, g ∈ (k', ms) :: groups -> key_lt (key r) g.1).
      { intros g Hg'. apply elem_of_cons in Hg' as [->|Hg']; [exact Hcmp|].
        eapply cmp_lt_trans; [exact Hcmp|]. apply Hlater. exact Hg'. }
      constructor.
      * apply group_of_new. intros r' Hr' Hkey.
        destruct (Hcov r' Hr' Hkey) as (g & Hg' & Hgk).
        apply (key_lt_ne (key r) g.1); [apply Hbelow; exact Hg'|].
        symmetry. exact Hgk.
      * apply Forall_forall. intros g Hg'.
        apply group_of_snoc_other; [apply key_lt_ne, Hbelow; exact Hg'|].
        apply elem_of_cons in Hg' as [->|Hg']; [exact Hg|].
        rewrite Forall_forall in Hall. auto.
    + assert (Hne : key r <> k').
      { intros Heq. apply cmp_eq_iff in Heq. congruence. }
      constructor; [apply group_of_snoc_other; assumption|].
      apply IH; [exact Hall|].
      intros r' Hr' Hkey. destruct (Hcov r' Hr' Hkey) as (g & Hg' & Hgk).
      apply elem_of_cons in Hg' as [->|Hg']; [contradiction (Hne (eq_sym Hgk))|].
      exists g. split; assumption.
Qed.

Lemma group_insert_covers (k0 k : K) r groups :
  (k = k0 \/ exists g, g ∈ groups /\ g.1 = k0) ->
  exists g, g ∈ group_insert k r groups /\ g.1 = k0.
Proof.
  induction groups as [|[k' ms] groups IH]; intros Hin.
  - destruct Hin as [->|(g & Hg & _)]; [|apply elem_of_nil in Hg; destruct Hg].
    exists (k0, [r]). split; [left|reflexivity].
  - cbn [group_insert]. destruct (cmp k k') eqn:Hcmp.
    + apply cmp_eq_iff in Hcmp. subst k'.
      destruct Hin as [->|(g & Hg & Hgk)].
      * eexists. split; [left|reflexivity].
      * apply elem_of_cons in Hg as [->|Hg].
        -- eexists. split; [left|exact Hgk].
        -- exists g. split; [right; exact Hg|exact Hgk].
    + destruct Hin as [->|(g & Hg & Hgk)].
      * eexists. split; [left|reflexivity].
      * exists g. split; [right; exact Hg|exact Hgk].
    + destruct Hin as [->|(g & Hg & Hgk)].
      * destruct (IH (or_introl eq_refl)) as (g & Hg & Hgk).
        exists g. split; [right; exact Hg|exact Hgk].
      * apply elem_of_cons in Hg as [->|Hg].
        -- eexists. split; [left|exact Hgk].
        -- destruct (IH (or_intror (ex_intro _ g (conj Hg Hgk))))
             as (g' & Hg' & Hgk').
           exists g'. split; [right; exact Hg'|exact Hgk'].
Qed.

Lemma fold_group_insert_exact rows done groups :
  StronglySorted group_lt groups ->
  Forall (group_of done) groups ->
  (forall r', r' ∈ done -> exists g, g ∈ groups /\ g.1 = key r') ->
  let out := fold_left (fun gs r => group_insert (key r) r gs) rows groups in
  Forall (group_of (done ++ rows)) out
  /\ (forall r', r' ∈ (done ++ rows)%list -> exists g, g ∈ out /\ g.1 = key r').
Proof.
  revert done groups.
  induction rows as [|r rows IH]; intros done groups Hsorted Hall Hcov; simpl.
  - rewrite app_nil_r. split; assumption.
  - replace (done ++ r :: rows)%list with ((done ++ [r]) ++ rows)%list
      by (rewrite <- app_assoc; reflexivity).
    apply IH.
    + apply group_insert_ascending. exact Hsorted.
    + apply group_insert_exact; [exact Hsorted|exact Hall|].
      intros r' Hr' Hkey. rewrite <- Hkey. apply Hcov. exact Hr'.
    + intros r' Hr'. apply group_insert_covers.
      apply elem_of_app in Hr' as [Hr'|Hr'].
      * right. apply Hcov. exact Hr'.
      * apply list_elem_of_singleton in Hr'. subst r'. left. reflexivity.
Qed.

Lemma groupby_exact rows :
  Forall (group_of rows) (groupby key rows)
  /\ (forall r, r ∈ rows -> exists g, g ∈ groupby key rows /\ g.1 = key r).
Proof.
  apply (fold_group_insert_exact rows [] []).
  - constructor.
  - constructor.
  - intros r Hr. apply elem_of_nil in Hr. destruct Hr.
Qed.

End exact_groups.

(** X9. For keys with a lawful comparison, a rate table has one row per
    key value that occurs among the records, in strictly ascending key
    order; the row's total is the number of records with that key, which
    is at least one, and its readmissions are the sum of their outcomes. *)
Theorem rate_table_exact {K : Type} `{KeyOrdLaws K} `{!KeyOrdEq K}
    `{EqDecision K} (df : DataFrame) (by_name : string)
    (key : PatientRecord -> K) (t : list (AggregateRow K)) :
  readmission_rate_by df by_name key = Ok t ->
  StronglySorted key_order t
  /\ (forall a, a ∈ t ->
        let group := filter (fun r => key r = Key a) (records df) in
        group <> []
        /\ Total a = Z.of_nat (length group)
        /\ Readmissions a = sum (readmitted_30days <$> group))
  /\ (forall r, r ∈ records df -> exists a, a ∈ t /\ Key a = key r).
Proof.
  intros Ht. apply readmission_rate_by_Ok in Ht. subst t.
  destruct (groupby_exact key (records df)) as [Hgroups Hcov].
  split; [|split].
  - apply (StronglySorted_fmap _ group_lt key_order);
      [intros g h Hgh; exact Hgh|apply groupby_ascending].
  - intros a Ha. apply list_elem_of_fmap in Ha as (g & -> & Hg).
    rewrite Forall_forall in Hgroups. destruct (Hgroups g Hg) as [Hne Heq].
    cbn zeta. change (Key (agg_sum_count_mean g)) with g.1.
    rewrite <- Heq. split; [exact Hne|]. split; [apply Total_agg|reflexivity].
  - intros r Hr. destruct (Hcov r Hr) as (g & Hg & Hgk).
    exists (agg_sum_count_mean g). split; [|exact Hgk].
    apply list_elem_of_fmap. exists g. split; [reflexivity|exact Hg].
Qed.

Lemma rate_table_exact_witness :
  let t := [mkAggregateRow "Circulatory" 1 1 1%Q;
            mkAggregateRow "Other" 0 2 (0 # 2)%Q] in
  StronglySorted key_order t
  /\ (forall a, a ∈ t ->
        let group :=
          filter (fun r => primary_diagnosis r = Key a)
            (records (pd_DataFrame three_records)) in
        group <> []
        /\ Total a = Z.of_nat (length group)
        /\ Readmissions a = sum (readmitted_30days <$> group))
  /\ (forall r, r ∈ records (pd_DataFrame three_records) ->
        exists a, a ∈ t /\ Key a = primary_diagnosis r).
Proof.
  apply (rate_table_exact (pd_DataFrame three_records) "primary_diagnosis"
           primary_diagnosis).
  reflexivity.
Defined.

(** *** Rankings and series *)



(** X11. The chart of the top diagnoses shows at most ten rows, the first
    ones of the ranking; it leaves rows out only when it shows ten, and no
    row left out has a higher rate than a row shown. *)
Theorem top10_best (df : DataFrame) (t : list (AggregateRow string)) :
  top10 df = Ok t ->
  (length t <= 10)%nat
  /\ exists rest,
       diag_readmit df = Ok (t ++ rest)%list
       /\ (rest = [] \/ length t = 10%nat)
       /\ (forall a b, a ∈ t -> b ∈ rest -> (Rate b <= Rate a)%Q).
Proof.
  unfold top10.
  destruct (diag_readmit df) as [d|] eqn:Hd; [|discriminate].
  simpl. intros [= <-].
  split; [rewrite length_take; lia|].
  exists (drop 10 d). rewrite take_drop. split; [reflexivity|]. split.
  - destruct (decide (length d <= 10)%nat) as [Hshort|Hlong].
    + left. apply drop_ge. exact Hshort.
    + right. rewrite length_take. lia.
  - assert (Hsorted : StronglySorted (fun a b => (Rate b <= Rate a)%Q) d).
    { unfold diag_readmit in Hd.
      destruct (readmission_rate_by df "primary_diagnosis" primary_diagnosis);
        [|discriminate].
      simpl in Hd. injection Hd as <-. apply sort_values_descending. }
    rewrite <- (take_drop 10 d) in Hsorted.
    apply StronglySorted_app in Hsorted as (Hcross & _ & _).
    intros a b Ha Hb. apply (Hcross a b Ha Hb).
Qed.

Lemma top10_best_witness :
  (length [tie_A; tie_B] <= 10)%nat
  /\ exists rest,
       diag_readmit (pd_DataFrame tie_records) = Ok ([tie_A; tie_B] ++ rest)%list
       /\ (rest = [] \/ length [tie_A; tie_B] = 10%nat)
       /\ (forall a b, a ∈ [tie_A; tie_B] -> b ∈ rest -> (Rate b <= Rate a)%Q).
Proof.
  apply (top10_best (pd_DataFrame tie_records)).
  vm_compute. reflexivity.
Defined.

(** X12. The line series by prior inpatient or emergency visits keeps
    exactly the rows with at most 5 prior visits and lists them in
    strictly ascending order of the visit count. *)
Theorem prior_visit_series (df : DataFrame) (t : list (AggregateRow Z)) :
  inpatient_readmit df = Ok t \/ emergency_readmit df = Ok t ->
  StronglySorted (fun a b => Key a < Key b) (at_most_5 t)
  /\ (forall a, a ∈ at_most_5 t <-> a ∈ t /\ Key a <= 5).
Proof.
  intros Ht. split.
  - apply StronglySorted_filter.
    assert (Hsorted : StronglySorted key_order t).
    { unfold inpatient_readmit, emergency_readmit in Ht.
      destruct Ht as [Ht|Ht];
        match type of Ht with
        | context [readmission_rate_by ?d ?n ?k] =>
            destruct (readmission_rate_by d n k) as [t0|] eqn:Ht0;
            [|discriminate]
        end;
        simpl in Ht; injection Ht as <-;
        apply readmission_rate_by_Ok in Ht0; subst t0;
        apply rate_table_key_order. }
    eapply StronglySorted_impl; [|exact Hsorted].
    intros a b. unfold key_order, key_lt, cmp, Z_KeyOrd.
    apply Z.compare_lt_iff.
  - intros a. unfold at_most_5. rewrite list_elem_of_filter. tauto.
Qed.

Lemma prior_visit_series_witness :
  let t := [mkAggregateRow 0 0 2 (0 # 2)%Q; mkAggregateRow 2 1 1 100%Q] in
  StronglySorted (fun a b => Key a < Key b) (at_most_5 t)
  /\ (forall a, a ∈ at_most_5 t <-> a ∈ t /\ Key a <= 5).
Proof.
  apply (prior_visit_series (pd_DataFrame three_records)).
  left. reflexivity.
Defined.

Lemma bind_Ok_agg {A B : Type} (a : A) (k : A -> result B) :
  (Ok a ≫= k) = k a.
Proof. reflexivity. Qed.

(** *** Counts, percentages and means *)

Lemma count_ge_bounds (s : list Z) (t : Z) :
  0 <= count_ge s t <= Z.of_nat (length s).
Proof.
  unfold count_ge. pose proof (length_filter (fun x => t <= x) s). lia.
Qed.

Lemma percentage_bounds (c n : Z) :
  0 <= c <= n -> 0 < n ->
  (0 <= inject_Z c / inject_Z n * 100 /\ inject_Z c / inject_Z n * 100 <= 100)%Q.
Proof.
  intros [Hlo Hhi] Hn.
  assert (HnQ : (0 < inject_Z n)%Q) by (rewrite <- (Zlt_Qlt 0); exact Hn).
  assert (Hfrac : (0 <= inject_Z c / inject_Z n /\ inject_Z c / inject_Z n <= 1)%Q).
  { split.
    - apply Qle_shift_div_l; [exact HnQ|].
      rewrite Qmult_0_l, <- (Zle_Qle 0). exact Hlo.
    - apply Qle_shift_div_r; [exact HnQ|].
      rewrite Qmult_1_l, <- Zle_Qle. exact Hhi. }
  destruct Hfrac as [Hfrac0 Hfrac1]. split.
  - apply Qmult_le_0_compat; [exact Hfrac0|discriminate].
  - change (inject_Z c / inject_Z n * 100 <= 1 * 100)%Q.
    apply Qmult_le_compat_r; [exact Hfrac1|discriminate].
Qed.

(** X13. On a table with at least one row, a threshold count over any of
    its columns lies between 0 and the number of rows, and the percentage
    shown with it lies between 0 and 100. *)
Theorem threshold_count_bounds (rows : list PatientRecord) (name : string)
    (field : PatientRecord -> Z) (t : Z) :
  rows <> [] -> name ∈ column_names ->
  exists c q,
    threshold_count (pd_DataFrame rows) name field t = Ok c
    /\ 0 <= c <= len (pd_DataFrame rows)
    /\ pct_of (threshold_count (pd_DataFrame rows) name field t)
         (pd_DataFrame rows) = Ok q
    /\ (0 <= q)%Q /\ (q <= 100)%Q.
Proof.
  intros Hne Hname. unfold pct_of, threshold_count.
  rewrite (getitem_rows rows name field Hne Hname).
  do 2 eexists. split; [reflexivity|].
  assert (Hc : 0 <= count_ge (field <$> rows) t <= len (pd_DataFrame rows)).
  { pose proof (count_ge_bounds (field <$> rows) t) as Hc.
    rewrite length_fmap in Hc. exact Hc. }
  split; [exact Hc|]. split; [reflexivity|].
  apply percentage_bounds; [exact Hc|].
  unfold len. simpl. destruct rows; [congruence|simpl; lia].
Qed.

Lemma threshold_count_bounds_witness :
  exists c q,
    threshold_count (pd_DataFrame three_records) "time_in_hospital"
      time_in_hospital 7 = Ok c
    /\ 0 <= c <= len (pd_DataFrame three_records)
    /\ pct_of
         (threshold_count (pd_DataFrame three_records) "time_in_hospital"
            time_in_hospital 7)
         (pd_DataFrame three_records) = Ok q
    /\ (0 <= q)%Q /\ (q <= 100)%Q.
Proof.
  apply (threshold_count_bounds three_records "time_in_hospital"
           time_in_hospital 7).
  - discriminate.
  - known_column.
Defined.

Lemma size_totals {K : Type} (groups : list (K * list PatientRecord)) :
  snd <$> size groups = Total <$> (agg_sum_count_mean <$> groups).
Proof.
  unfold size. rewrite <- !list_fmap_compose. apply list_fmap_ext.
  intros i g _. simpl. rewrite length_fmap. reflexivity.
Qed.

(** X14. The counts by gender and readmission label are all at least 1,
    and they add up to the number of rows of the table. *)
Theorem gender_counts_cover (df : DataFrame)
    (t : list ((string * string) * Z)) :
  gender_counts df = Ok t ->
  Forall (fun kc => 1 <= kc.2) t /\ sum (snd <$> t) = len df.
Proof.
  unfold gender_counts.
  destruct (getitem df "gender" gender); [|discriminate].
  destruct (getitem df "readmitted_label" readmitted_label); [|discriminate].
  simpl. intros [= <-]. split.
  - unfold size. apply Forall_fmap.
    eapply Forall_impl;
      [apply (groupby_populated (fun _ => True)); apply Forall_forall; intros; exact I|].
    intros g [Hne _]. simpl. destruct (g.2); [congruence|simpl; lia].
  - rewrite size_totals. apply groupby_totals.
Qed.

Lemma gender_counts_cover_witness :
  Forall (fun kc => 1 <= kc.2) [("Male", "No", 2); ("Male", "Yes", 1)]
  /\ sum (snd <$> [("Male", "No", 2); ("Male", "Yes", 1)])
     = len (pd_DataFrame three_records).
Proof.
  apply (gender_counts_cover (pd_DataFrame three_records)).
  reflexivity.
Defined.

Lemma sum_between (s : list Z) (lo hi : Z) :
  Forall (fun x => lo <= x <= hi) s ->
  lo * Z.of_nat (length s) <= sum s <= hi * Z.of_nat (length s).
Proof.
  induction 1 as [|x s Hx _ IH]; [unfold sum; simpl; lia|].
  change (sum (x :: s)) with (x + sum s).
  cbn [length]. lia.
Qed.

Lemma mean_between (s : list Z) (lo hi : Z) :
  s <> [] -> Forall (fun x => lo <= x <= hi) s ->
  (inject_Z lo <= mean s /\ mean s <= inject_Z hi)%Q.
Proof.
  intros Hne Hs. pose proof (sum_between s lo hi Hs) as [Hlo Hhi].
  assert (Hlen : (0 < inject_Z (Z.of_nat (length s)))%Q).
  { rewrite <- (Zlt_Qlt 0). destruct s; [congruence|simpl; lia]. }
  unfold mean. split.
  - apply Qle_shift_div_l; [exact Hlen|].
    rewrite <- inject_Z_mult, <- Zle_Qle. exact Hlo.
  - apply Qle_shift_div_r; [exact Hlen|].
    rewrite <- inject_Z_mult, <- Zle_Qle. exact Hhi.
Qed.

(** X15. When every stay of a non-empty table lasts between [lo] and [hi]
    days and every medication count lies between [lo'] and [hi'], the
    average stay of the overview lies between [lo] and [hi] and the
    average number of medications between [lo'] and [hi']. *)
Theorem averages_within_range (rows : list PatientRecord) (lo hi lo' hi' : Z) :
  rows <> [] ->
  Forall (fun r => lo <= time_in_hospital r <= hi) rows ->
  Forall (fun r => lo' <= num_medications r <= hi') rows ->
  (exists q, avg_stay (pd_DataFrame rows) = Ok q
             /\ (inject_Z lo <= q)%Q /\ (q <= inject_Z hi)%Q)
  /\ (exists q, avg_meds (pd_DataFrame rows) = Ok q
                /\ (inject_Z lo' <= q)%Q /\ (q <= inject_Z hi')%Q).
Proof.
  intros Hne Hstay Hmeds.
  assert (Hne' : forall f : PatientRecord -> Z, f <$> rows <> []).
  { intros f. destruct rows; [congruence|discriminate]. }
  split; unfold avg_stay, avg_meds;
    rewrite (getitem_rows rows _ _ Hne) by known_column;
    eexists; (split; [reflexivity|]);
    (apply mean_between; [apply Hne'|apply Forall_fmap; assumption]).
Qed.

Lemma three_records_ranges :
  Forall (fun r => 1 <= time_in_hospital r <= 8) three_records
  /\ Forall (fun r => 5 <= num_medications r <= 25) three_records.
Proof.
  split;
    repeat first [apply Forall_nil_2 | apply Forall_cons_2; [simpl; lia|]].
Qed.

Lemma averages_within_range_witness :
  (exists q, avg_stay (pd_DataFrame three_records) = Ok q
             /\ (inject_Z 1 <= q)%Q /\ (q <= inject_Z 8)%Q)
  /\ (exists q, avg_meds (pd_DataFrame three_records) = Ok q
                /\ (inject_Z 5 <= q)%Q /\ (q <= inject_Z 25)%Q).
Proof.
  apply (averages_within_range three_records 1 8 5 25).
  - discriminate.
  - exact (proj1 three_records_ranges).
  - exact (proj2 three_records_ranges).
Defined.

Lemma rint_between (q : Q) (lo hi : Z) :
  (inject_Z lo <= q)%Q -> (q <= inject_Z hi)%Q -> lo <= rint q <= hi.
Proof.
  intros Hlo Hhi. unfold rint.
  pose proof (Qfloor_le q) as Hfloor.
  pose proof (Qlt_floor q) as Hnext.
  assert (Hlow : lo <= Qfloor q).
  { assert (Hlt : (inject_Z lo < inject_Z (Qfloor q + 1))%Q)
      by (eapply Qle_lt_trans; eassumption).
    rewrite <- Zlt_Qlt in Hlt. lia. }
  assert (Hup : Qfloor q <= hi).
  { rewrite Zle_Qle. eapply Qle_trans; eassumption. }
  assert (Hstrict : (0 < q - inject_Z (Qfloor q))%Q -> Qfloor q + 1 <= hi).
  { intros Hpos.
    assert (Hlt : (inject_Z (Qfloor q) < inject_Z hi)%Q).
    { eapply Qlt_le_trans; [|exact Hhi].
      apply Qlt_minus_iff. exact Hpos. }
    rewrite <- Zlt_Qlt in Hlt. lia. }
  destruct (q - inject_Z (Qfloor q) ?= 1 # 2)%Q eqn:Hcmp.
  - destruct (Z.even (Qfloor q)); [lia|].
    apply Qeq_alt in Hcmp. split; [lia|]. apply Hstrict.
    rewrite Hcmp. reflexivity.
  - lia.
  - apply Qgt_alt in Hcmp. split; [lia|]. apply Hstrict.
    eapply Qlt_trans; [|exact Hcmp]. reflexivity.
Qed.

Lemma round2_between (q : Q) (lo hi : Z) :
  (inject_Z lo <= q)%Q -> (q <= inject_Z hi)%Q ->
  (inject_Z lo <= round2 q)%Q /\ (round2 q <= inject_Z hi)%Q.
Proof.
  intros Hlo Hhi. unfold round2.
  assert (Hscaled : lo * 100 <= rint (q * 100) <= hi * 100).
  { apply rint_between; rewrite inject_Z_mult;
      (apply Qmult_le_compat_r; [assumption|discriminate]). }
  destruct Hscaled as [Hl Hh]. split.
  - apply Qle_shift_div_l; [reflexivity|].
    change 100%Q with (inject_Z 100). rewrite <- inject_Z_mult, <- Zle_Qle.
    exact Hl.
  - apply Qle_shift_div_r; [reflexivity|].
    change 100%Q with (inject_Z 100). rewrite <- inject_Z_mult, <- Zle_Qle.
    exact Hh.
Qed.

(** X16. In the statistics by readmission status every group average of
    the hospital days, rounded to two decimals as the table shows it,
    lies within the range of the hospital days of the table, and there is
    one row per label in ascending label order. *)
Theorem stats_df_within_range (df : DataFrame) (lo hi : Z)
    (t : list StatsRow) :
  Forall (fun r => lo <= time_in_hospital r <= hi) (records df) ->
  stats_df df = Ok t ->
  Forall (fun s => (inject_Z lo <= avg_hospital_days s)%Q
                   /\ (avg_hospital_days s <= inject_Z hi)%Q) t
  /\ StronglySorted (fun a b => key_lt (status a) (status b)) t.
Proof.
  intros Hrange. unfold stats_df.
  repeat match goal with
         | |- context [mbind _ (getitem ?d ?n ?f)] =>
             destruct (getitem d n f); [|discriminate]
         end.
  simpl. intros [= <-]. split.
  - apply Forall_fmap.
    eapply Forall_impl; [apply groupby_populated; exact Hrange|].
    intros g [Hne Hall]. simpl.
    assert (Hmean : (inject_Z lo <= mean (time_in_hospital <$> g.2)
                     /\ mean (time_in_hospital <$> g.2) <= inject_Z hi)%Q).
    { apply mean_between.
      - destruct (g.2); [congruence|discriminate].
      - apply Forall_fmap. exact Hall. }
    apply round2_between; tauto.
  - apply (StronglySorted_fmap _ group_lt); [intros g h Hgh; exact Hgh|].
    apply groupby_ascending.
Qed.

Lemma three_records_stay_range :
  Forall (fun r => 1 <= time_in_hospital r <= 8)
    (records (pd_DataFrame three_records)).
Proof.
  repeat first [apply Forall_nil_2 | apply Forall_cons_2; [simpl; lia|]].
Qed.

Lemma stats_df_within_range_witness :
  let t := [mkStatsRow "No" (750 # 100) (4000 # 100) (700 # 100) (200 # 100);
            mkStatsRow "Yes" (2500 # 100) (4000 # 100) (700 # 100)
              (800 # 100)] in
  Forall (fun s => (inject_Z 1 <= avg_hospital_days s)%Q
                   /\ (avg_hospital_days s <= inject_Z 8)%Q) t
  /\ StronglySorted (fun a b => key_lt (status a) (status b)) t.
Proof.
  apply (stats_df_within_range (pd_DataFrame three_records) 1 8).
  - exact three_records_stay_range.
  - reflexivity.
Defined.

Lemma Total_le_sum_totals {K : Type} (t : list (AggregateRow K))
    (a : AggregateRow K) :
  Forall (fun b => 0 <= Total b) t -> a ∈ t -> Total a <= sum_totals t.
Proof.
  induction 1 as [|b t Hb Hall IH]; intros Ha.
  - apply elem_of_nil in Ha. destruct Ha.
  - change (sum_totals (b :: t)) with (Total b + sum_totals t).
    assert (0 <= sum_totals t).
    { clear IH Ha. induction Hall as [|c t Hc _ IH]; [unfold sum_totals, sum; simpl; lia|].
      change (sum_totals (c :: t)) with (Total c + sum_totals t). lia. }
    apply elem_of_cons in Ha as [->|Ha]; [lia|]. specialize (IH Ha). lia.
Qed.

(** X17. A table of fewer than 100 rows has no diagnosis with 100 cases:
    the ranking of the diagnoses is empty, and so is its chart. *)
Theorem diag_readmit_small (rows : list PatientRecord) :
  rows <> [] -> (length rows < 100)%nat ->
  diag_readmit (pd_DataFrame rows) = Ok []
  /\ top10 (pd_DataFrame rows) = Ok [].
Proof.
  intros Hne Hsmall.
  assert (Hd : diag_readmit (pd_DataFrame rows) = Ok []).
  { unfold diag_readmit.
    rewrite readmission_rate_by_rows by (assumption || known_column).
    rewrite bind_Ok_agg. f_equal.
    rewrite (filter_none _ (percent _)); [reflexivity|].
    intros a Ha.
    assert (Hle : Total a
                  <= sum_totals
                       (percent (agg_sum_count_mean
                                   <$> groupby primary_diagnosis rows))).
    { apply Total_le_sum_totals; [|exact Ha].
      unfold percent. apply Forall_fmap, Forall_fmap, Forall_forall.
      intros g _. simpl. lia. }
    rewrite percent_totals, groupby_totals in Hle. lia. }
  split; [exact Hd|]. unfold top10. rewrite Hd. reflexivity.
Qed.

Lemma diag_readmit_small_witness :
  diag_readmit (pd_DataFrame three_records) = Ok []
  /\ top10 (pd_DataFrame three_records) = Ok [].
Proof.
  apply (diag_readmit_small three_records).
  - discriminate.
  - simpl. lia.
Defined.

(** *** The order of the rows does not matter *)

Lemma sum_Permutation (s s' : list Z) : s ≡ₚ s' -> sum s = sum s'.
Proof.
  unfold sum. induction 1; simpl; lia.
Qed.

Lemma mean_Permutation (s s' : list Z) : s ≡ₚ s' -> mean s = mean s'.
Proof.
  intros Hperm. unfold mean.
  rewrite (sum_Permutation s s' Hperm), (Permutation_length Hperm).
  reflexivity.
Qed.

Lemma columns_Permutation (rows rows' : list PatientRecord) :
  rows ≡ₚ rows' -> columns (pd_DataFrame rows) = columns (pd_DataFrame rows').
Proof.
  intros Hperm. destruct rows as [|r rows].
  - apply Permutation_nil_l in Hperm. subst rows'. reflexivity.
  - destruct rows' as [|r' rows']; [|reflexivity].
    apply Permutation_nil_r in Hperm. discriminate.
Qed.

Section order_independence.
Context {K : Type} `{KeyOrdLaws K} `{!KeyOrdEq K} `{EqDecision K}.
Variable key : PatientRecord -> K.

(** The row of the key [k], computed from the records with that key. *)
Definition row_for (rows : list PatientRecord) (k : K) : AggregateRow K :=
  agg_sum_count_mean (k, filter (fun r => key r = k) rows).

Lemma row_for_Permutation (rows rows' : list PatientRecord) (k : K) :
  rows ≡ₚ rows' -> row_for rows k = row_for rows' k.
Proof.
  intros Hperm. unfold row_for, agg_sum_count_mean. cbn [fst snd].
  assert (Hs : readmitted_30days <$> filter (fun r => key r = k) rows
               ≡ₚ readmitted_30days <$> filter (fun r => key r = k) rows')
    by (rewrite Hperm; reflexivity).
  rewrite (sum_Permutation _ _ Hs), (mean_Permutation _ _ Hs),
    (Permutation_length Hs).
  reflexivity.
Qed.

Lemma rate_table_rows_iff (rows : list PatientRecord) (a : AggregateRow K) :
  a ∈ agg_sum_count_mean <$> groupby key rows
  <-> exists r, r ∈ rows /\ a = row_for rows (key r).
Proof.
  destruct (groupby_exact key rows) as [Hgroups Hcov].
  rewrite Forall_forall in Hgroups. split.
  - intros Ha. apply list_elem_of_fmap in Ha as ([k ms] & -> & Hg).
    destruct (Hgroups _ Hg) as [Hne Heq]. simpl in Hne, Heq.
    destruct ms as [|r ms]; [congruence|].
    assert (Hr : r ∈ filter (fun x => key x = k) rows)
      by (rewrite <- Heq; left).
    apply list_elem_of_filter in Hr as [Hkey Hr].
    exists r. split; [exact Hr|]. unfold row_for. rewrite Hkey, <- Heq.
    reflexivity.
  - intros (r & Hr & ->). destruct (Hcov r Hr) as ([k ms] & Hg & Hk).
    simpl in Hk. subst k. destruct (Hgroups _ Hg) as [_ Heq]. simpl in Heq.
    apply list_elem_of_fmap. exists (key r, ms). split; [|exact Hg].
    unfold row_for. rewrite <- Heq. reflexivity.
Qed.

Lemma key_order_NoDup (t : list (AggregateRow K)) :
  StronglySorted key_order t -> NoDup t.
Proof.
  induction 1 as [|a t _ IH Ha]; [constructor|].
  apply NoDup_cons. split; [|exact IH].
  intros Hin. rewrite Forall_forall in Ha.
  apply (key_lt_ne (Key a) (Key a)); [apply (Ha a Hin)|reflexivity].
Qed.

Lemma rate_table_Permutation (rows rows' : list PatientRecord) :
  rows ≡ₚ rows' ->
  agg_sum_count_mean <$> groupby key rows
  = agg_sum_count_mean <$> groupby key rows'.
Proof.
  intros Hperm.
  assert (Hsorted : forall l,
            StronglySorted key_order (agg_sum_count_mean <$> groupby key l)).
  { intros l. apply (StronglySorted_fmap _ group_lt key_order);
      [intros g h Hgh; exact Hgh|apply groupby_ascending]. }
  apply (StronglySorted_unique_strong key_order); [|apply Hsorted..|].
  - intros a b _ _ Hab Hba. exfalso.
    apply (key_lt_ne (Key a) (Key a)); [|reflexivity].
    unfold key_order, key_lt in *. eapply cmp_lt_trans; eassumption.
  - apply NoDup_Permutation; [apply key_order_NoDup, Hsorted..|].
    intros a. rewrite !rate_table_rows_iff. split.
    + intros (r & Hr & ->). exists r. split; [rewrite <- Hperm; exact Hr|].
      apply row_for_Permutation. exact Hperm.
    + intros (r & Hr & ->). exists r. split; [rewrite Hperm; exact Hr|].
      symmetry. apply row_for_Permutation. exact Hperm.
Qed.

Lemma readmission_rate_by_Permutation (rows rows' : list PatientRecord)
    (by_name : string) :
  rows ≡ₚ rows' ->
  readmission_rate_by (pd_DataFrame rows) by_name key
  = readmission_rate_by (pd_DataFrame rows') by_name key.
Proof.
  intros Hperm. unfold readmission_rate_by, getitem.
  rewrite (columns_Permutation rows rows' Hperm).
  destruct (bool_decide (by_name ∈ _)); [|reflexivity].
  destruct (bool_decide ("readmitted_30days" ∈ _)); [|reflexivity].
  simpl. f_equal. apply rate_table_Permutation. exact Hperm.
Qed.

End order_independence.

Lemma getitem_reduce_Permutation {A : Type} (reduce : list Z -> A)
    (Hreduce : forall s s', s ≡ₚ s' -> reduce s = reduce s')
    (rows rows' : list PatientRecord) (name : string)
    (field : PatientRecord -> Z) :
  rows ≡ₚ rows' ->
  (s ← getitem (pd_DataFrame rows) name field; Ok (reduce s))
  = (s ← getitem (pd_DataFrame rows') name field; Ok (reduce s)).
Proof.
  intros Hperm. unfold getitem.
  rewrite (columns_Permutation rows rows' Hperm).
  destruct (bool_decide (name ∈ _)); [|reflexivity].
  simpl. f_equal. apply Hreduce. rewrite Hperm. reflexivity.
Qed.

Lemma count_ge_Permutation (t : Z) (s s' : list Z) :
  s ≡ₚ s' -> count_ge s t = count_ge s' t.
Proof. intros Hperm. unfold count_ge. rewrite Hperm. reflexivity. Qed.

(** X20. The figures of the pages do not depend on the order in which
    the store returned the documents: two tables with the same rows in a
    different order give the same rate tables by race, by prior visits and
    by diagnosis, the same top ten, the same readmission count and
    percentage, the same averages and the same threshold counts. *)
Theorem figures_ignore_row_order (rows rows' : list PatientRecord) :
  rows ≡ₚ rows' ->
  let df := pd_DataFrame rows in
  let df' := pd_DataFrame rows' in
  race_readmit df = race_readmit df'
  /\ inpatient_readmit df = inpatient_readmit df'
  /\ emergency_readmit df = emergency_readmit df'
  /\ diag_readmit df = diag_readmit df'
  /\ top10 df = top10 df'
  /\ readmit_count df = readmit_count df'
  /\ readmit_pct df = readmit_pct df'
  /\ avg_stay df = avg_stay df'
  /\ avg_meds df = avg_meds df'
  /\ (forall name field t,
        threshold_count df name field t = threshold_count df' name field t).
Proof.
  intros Hperm df df'. subst df df'.
  assert (Hdiag : diag_readmit (pd_DataFrame rows)
                  = diag_readmit (pd_DataFrame rows')).
  { unfold diag_readmit.
    rewrite (readmission_rate_by_Permutation primary_diagnosis rows rows')
      by exact Hperm. reflexivity. }
  assert (Hcount : readmit_count (pd_DataFrame rows)
                   = readmit_count (pd_DataFrame rows')).
  { apply (getitem_reduce_Permutation sum sum_Permutation). exact Hperm. }
  repeat split.
  - unfold race_readmit.
    rewrite (readmission_rate_by_Permutation race rows rows') by exact Hperm.
    reflexivity.
  - unfold inpatient_readmit.
    rewrite (readmission_rate_by_Permutation number_inpatient rows rows')
      by exact Hperm. reflexivity.
  - unfold emergency_readmit.
    rewrite (readmission_rate_by_Permutation number_emergency rows rows')
      by exact Hperm. reflexivity.
  - exact Hdiag.
  - unfold top10. rewrite Hdiag. reflexivity.
  - exact Hcount.
  - unfold readmit_pct, len. rewrite Hcount. simpl.
    rewrite (Permutation_length Hperm). reflexivity.
  - apply (getitem_reduce_Permutation mean mean_Permutation). exact Hperm.
  - apply (getitem_reduce_Permutation mean mean_Permutation). exact Hperm.
  - intros name field t. unfold threshold_count.
    apply (getitem_reduce_Permutation (fun s => count_ge s t)
             (count_ge_Permutation t)).
    exact Hperm.
Qed.

Lemma figures_ignore_row_order_witness :
  let df := pd_DataFrame three_records in
  let df' := pd_DataFrame (rev three_records) in
  race_readmit df = race_readmit df'
  /\ inpatient_readmit df = inpatient_readmit df'
  /\ emergency_readmit df = emergency_readmit df'
  /\ diag_readmit df = diag_readmit df'
  /\ top10 df = top10 df'
  /\ readmit_count df = readmit_count df'
  /\ readmit_pct df = readmit_pct df'
  /\ avg_stay df = avg_stay df'
  /\ avg_meds df = avg_meds df'
  /\ (forall name field t,
        threshold_count df name field t = threshold_count df' name field t).
Proof.
  apply (figures_ignore_row_order three_records (rev three_records)).
  apply Permutation_rev.
Defined.

(** X21. On a non-empty table whose outcomes are 0 or 1, the readmission
    count lies between 0 and the number of rows and the readmission
    percentage of the overview between 0 and 100. *)
Theorem readmit_pct_bounds (rows : list PatientRecord) :
  rows <> [] -> Forall binary_outcome rows ->
  exists c q,
    readmit_count (pd_DataFrame rows) = Ok c
    /\ 0 <= c <= len (pd_DataFrame rows)
    /\ readmit_pct (pd_DataFrame rows) = Ok q
    /\ (0 <= q)%Q /\ (q <= 100)%Q.
Proof.
  intros Hne Hrows. unfold readmit_pct, readmit_count.
  rewrite (getitem_rows rows _ _ Hne) by known_column.
  do 2 eexists. split; [reflexivity|].
  assert (Hc : 0 <= sum (readmitted_30days <$> rows) <= len (pd_DataFrame rows)).
  { pose proof (sum_zero_one (readmitted_30days <$> rows)) as Hc.
    rewrite length_fmap in Hc. apply Hc. apply Forall_fmap. exact Hrows. }
  split; [exact Hc|]. split; [reflexivity|].
  apply percentage_bounds; [exact Hc|].
  unfold len. simpl. destruct rows; [congruence|simpl; lia].
Qed.

Lemma readmit_pct_bounds_witness :
  exists c q,
    readmit_count (pd_DataFrame three_records) = Ok c
    /\ 0 <= c <= len (pd_DataFrame three_records)
    /\ readmit_pct (pd_DataFrame three_records) = Ok q
    /\ (0 <= q)%Q /\ (q <= 100)%Q.
Proof.
  apply (readmit_pct_bounds three_records).
  - discriminate.
  - exact three_records_binary.
Defined.

End AggregatorProps.
